(** * Supertonic TTS web UI: the synthesis request pipeline of [webui.py]

    A shallow embedding of [get_voice_styles], [load_model] and
    [generate_audio] together with the library functions they call
    ([str.strip], [os.path.join], [os.path.basename], [glob.glob],
    the [.2f] float format), and the properties of the pipeline. *)

From Stdlib Require Import Ascii String.
From Stdlib Require Import ZArith NArith List Bool Floats Lia.
Import ListNotations.

Set Warnings "-inexact-float".

(** ** Python strings

    A Python [str] is a sequence of Unicode code points. *)

Module PyStr.

Definition codepoint := N.
Definition str := list codepoint.

(** String literals of the program; all of them are ASCII. *)
Definition lit (s : string) : str := map N_of_ascii (list_ascii_of_string s).

Arguments lit s : simpl never.

(** [a == b]. *)
Fixpoint str_eqb (a b : str) : bool :=
  match a, b with
  | [], [] => true
  | x :: a', y :: b' => (x =? y)%N && str_eqb a' b'
  | _, _ => false
  end.

(** [c.isspace()]: the code points CPython's [_PyUnicode_IsWhitespace]
    accepts. *)
Definition isspace (c : codepoint) : bool :=
  ((9 <=? c) && (c <=? 13) || (28 <=? c) && (c <=? 32)
   || (c =? 133) || (c =? 160) || (c =? 5760)
   || (8192 <=? c) && (c <=? 8202)
   || (c =? 8232) || (c =? 8233) || (c =? 8239) || (c =? 8287)
   || (c =? 12288))%N.

(** [s.lstrip()], [s.rstrip()] and [s.strip()] with no argument. *)
Fixpoint lstrip (s : str) : str :=
  match s with
  | [] => []
  | c :: r => if isspace c then lstrip r else s
  end.

Fixpoint rstrip (s : str) : str :=
  match s with
  | [] => []
  | c :: r =>
      match rstrip r with
      | [] => if isspace c then [] else [c]
      | r' => c :: r'
      end
  end.

Definition strip (s : str) : str := rstrip (lstrip s).

(** Truth value of a string: [bool(s)] is [len(s) != 0]. *)
Definition truthy (s : str) : bool :=
  match s with [] => false | _ :: _ => true end.

(** [s.startswith(p)] and [s.endswith(p)]. *)
Fixpoint startswith (s p : str) {struct p} : bool :=
  match p, s with
  | [], _ => true
  | _ :: _, [] => false
  | x :: p', y :: s' => (x =? y)%N && startswith s' p'
  end.

Definition endswith (s p : str) : bool := startswith (rev s) (rev p).

(** [s.rfind(c)] for a one-character [c]: the index of its last
    occurrence, [-1] when there is none. *)
Fixpoint rfind (c : codepoint) (s : str) : Z :=
  match s with
  | [] => -1
  | x :: r =>
      let i := rfind c r in
      if (0 <=? i)%Z then (i + 1)%Z
      else if (x =? c)%N then 0%Z else (-1)%Z
  end.

(** The slices [s[:i]] and [s[i:]] for [0 <= i]. *)
Definition slice_to (i : Z) (s : str) : str := firstn (Z.to_nat i) s.
Definition slice_from (i : Z) (s : str) : str := skipn (Z.to_nat i) s.

(** [s.rstrip(c)] for a one-character [c]. *)
Fixpoint rstrip_char (c : codepoint) (s : str) : str :=
  match s with
  | [] => []
  | x :: r =>
      match rstrip_char c r with
      | [] => if (x =? c)%N then [] else [x]
      | r' => x :: r'
      end
  end.

(** [sub in s], as a proposition and as the test Python runs. *)
Definition contains (s sub : str) : Prop :=
  exists a b, s = a ++ sub ++ b.

Fixpoint infixb (sub s : str) : bool :=
  startswith s sub
  || match s with
     | [] => false
     | _ :: r => infixb sub r
     end.

End PyStr.
Export PyStr.

(** ** [os.path] on a POSIX host *)

Module PosixPath.

Definition sep : codepoint := 47%N.

(** [os.path.join(a, b)]. *)
Definition join (a b : str) : str :=
  if startswith b [sep] then b
  else if negb (truthy a) || endswith a [sep] then a ++ b
  else a ++ [sep] ++ b.

(** [os.path.basename(p)]. *)
Definition basename (p : str) : str :=
  let i := (rfind sep p + 1)%Z in
  slice_from i p.

(** [os.path.split(p)]. *)
Definition split (p : str) : str * str :=
  let i := (rfind sep p + 1)%Z in
  let head := slice_to i p in
  let tail := slice_from i p in
  let head :=
    if truthy head && negb (str_eqb head (repeat sep (length head)))
    then rstrip_char sep head else head in
  (head, tail).

(** [os.path.isabs(p)]. *)
Definition isabs (p : str) : bool := startswith p [sep].

End PosixPath.

(** ** [fnmatch] and [glob] *)

Module Glob.

Definition star : codepoint := 42%N.
Definition qmark : codepoint := 63%N.
Definition lbracket : codepoint := 91%N.
Definition dot : codepoint := 46%N.

(** [fnmatch.fnmatchcase(name, pat)] for patterns built from literal
    characters, [*] and [?] (no bracket expressions). *)
Fixpoint fnmatch (pat : str) : str -> bool :=
  match pat with
  | [] => fun name => negb (truthy name)
  | p :: pat' =>
      if (p =? star)%N then
        fix star_from (name : str) : bool :=
          fnmatch pat' name
          || match name with
             | [] => false
             | _ :: name' => star_from name'
             end
      else
        fun name =>
          match name with
          | [] => false
          | c :: name' =>
              ((p =? qmark)%N || (p =? c)%N) && fnmatch pat' name'
          end
  end.

(** The patterns that match themselves only. *)
Definition no_wildcard (pat : str) : bool :=
  forallb (fun c => negb (c =? star)%N && negb (c =? qmark)%N) pat.

(** [glob.has_magic(s)]. *)
Definition has_magic (s : str) : bool :=
  existsb (fun c => (c =? star)%N || (c =? qmark)%N || (c =? lbracket)%N) s.

(** [glob._ishidden(name)]. *)
Definition ishidden (name : str) : bool :=
  match name with
  | c :: _ => (c =? dot)%N
  | [] => false
  end.

(** [glob._glob1(dirname, pattern)] over the names [os.scandir(dirname)]
    yields: hidden names are dropped unless the pattern is hidden too. *)
Definition glob1 (names : list str) (pattern : str) : list str :=
  let names :=
    if negb (ishidden pattern)
    then filter (fun x => negb (ishidden x)) names
    else names in
  filter (fnmatch pattern) names.

End Glob.

(** ** Numbers

    The engine's arrays are numpy arrays; the pipeline only sums one of
    them and formats the sum with [:.2f].  Both operations belong to the
    element type. *)

Class Numeric := {
  num : Type;
  np_sum : list num -> num;      (* [a.sum()] of a one-dimensional array *)
  format_2f : num -> str         (* [format(x, ".2f")] *)
}.

Module Binary64.

Definition digit (d : Z) : codepoint := Z.to_N (48 + d).

Fixpoint str_of_uint (d : Decimal.uint) : str :=
  match d with
  | Decimal.Nil => []
  | Decimal.D0 r => 48%N :: str_of_uint r
  | Decimal.D1 r => 49%N :: str_of_uint r
  | Decimal.D2 r => 50%N :: str_of_uint r
  | Decimal.D3 r => 51%N :: str_of_uint r
  | Decimal.D4 r => 52%N :: str_of_uint r
  | Decimal.D5 r => 53%N :: str_of_uint r
  | Decimal.D6 r => 54%N :: str_of_uint r
  | Decimal.D7 r => 55%N :: str_of_uint r
  | Decimal.D8 r => 56%N :: str_of_uint r
  | Decimal.D9 r => 57%N :: str_of_uint r
  end.

(** Decimal digits of a natural number, ["0"] for zero. *)
Definition decimal (n : Z) : str := str_of_uint (N.to_uint (Z.to_N n)).

(** [n / d] rounded to the nearest integer, ties to the even one
    ([0 <= n], [0 < d]). *)
Definition round_half_even (n d : Z) : Z :=
  let q := (n / d)%Z in
  let r := (n mod d)%Z in
  match (2 * r ?= d)%Z with
  | Lt => q
  | Gt => (q + 1)%Z
  | Eq => if Z.even q then q else (q + 1)%Z
  end.

(** [format(x, ".2f")] of a Python float: the exact binary value,
    correctly rounded to two decimals. *)
Definition format_2f (x : float) : str :=
  match Prim2SF x with
  | S754_nan => lit "nan"
  | S754_infinity s => if s then lit "-inf" else lit "inf"
  | S754_zero s => (if s then lit "-" else []) ++ lit "0.00"
  | S754_finite s m e =>
      let h :=
        if (0 <=? e)%Z
        then (Zpos m * 100 * 2 ^ e)%Z
        else round_half_even (Zpos m * 100) (2 ^ (- e)) in
      (if s then lit "-" else [])
        ++ decimal (h / 100) ++ lit "."
        ++ [digit ((h mod 100) / 10); digit ((h mod 100) mod 10)]
  end.

(** [a.sum()] of a short one-dimensional float64 array: the elements
    are added from left to right. *)
Definition np_sum (a : list float) : float :=
  fold_left PrimFloat.add a 0%float.

End Binary64.

#[export] Instance binary64 : Numeric := {|
  num := float;
  np_sum := Binary64.np_sum;
  format_2f := Binary64.format_2f
|}.

Definition DEFAULT_SPEED : float := 1.05%float.

(** ** Exceptions

    [exn] stands for the instances of [Exception] a call may raise,
    the class the handler of [generate_audio] names ([KeyboardInterrupt]
    and [SystemExit] are not among them); [str_of_exn] is [str(e)]. *)

Inductive exn : Type :=
| FileNotFoundError (msg : str)
| OtherException (cls : str) (msg : str).

Definition str_of_exn (e : exn) : str :=
  match e with
  | FileNotFoundError msg => msg
  | OtherException _ msg => msg
  end.

Inductive outcome (A : Type) : Type :=
| Return (a : A)
| Raise (e : exn).

Arguments Return {A} a.
Arguments Raise {A} e.

(** ** The engine and the world around the pipeline *)

(** The object [load_text_to_speech] returns; [obj_id] is its identity. *)
Record TextToSpeech : Type := {
  obj_id : N;
  sample_rate : Z
}.

(** The object [load_voice_style] returns. *)
Record Style : Type := { style_id : N }.

Section Pipeline.

Context {NUM : Numeric}.

(** What the pipeline sees of its surroundings during one call: the
    file system and the behaviour of the functions of [helper]. *)
Record env : Type := {
  fs_exists : str -> bool;                (* [os.path.exists(p)] *)
  fs_scandir : str -> list str;           (* names [os.scandir(p)] yields,
                                             none when it fails *)
  helper_load_text_to_speech : str -> bool -> outcome TextToSpeech;
  helper_load_voice_style : list str -> outcome Style;
  engine_call : TextToSpeech -> str -> Style -> Z -> num ->
                outcome (list (list num) * list num)
}.

(** The effects a call performs, in the order it performs them. *)
Inductive event : Type :=
| EvExists (p : str)
| EvGlob (pattern : str)
| EvPrint (line : str)
| EvLoadTextToSpeech (dir : str) (use_gpu : bool)
| EvLoadVoiceStyle (paths : list str)
| EvEngineCall (model : TextToSpeech) (text : str) (style : Style)
               (total_steps : Z) (speed : num)
| EvTraceback (e : exn).

(** The module's global [tts_model] and the effects performed so far. *)
Record state : Type := {
  tts_model : option TextToSpeech;
  trace : list event
}.

(** [tts_model = None] at import time. *)
Definition initial_state : state :=
  {| tts_model := None; trace := [] |}.

(** [s] after the effects [evs]. *)
Definition log (s : state) (evs : list event) : state :=
  {| tts_model := tts_model s; trace := trace s ++ evs |}.

(** *** The monad of the module's functions *)

Definition M (A : Type) : Type := env -> state -> outcome A * state.

Definition ret {A} (a : A) : M A := fun _ s => (Return a, s).

Definition bind {A B} (m : M A) (k : A -> M B) : M B :=
  fun e s =>
    match m e s with
    | (Return a, s') => k a e s'
    | (Raise x, s') => (Raise x, s')
    end.

Definition raise {A} (x : exn) : M A := fun _ s => (Raise x, s).

(** [try: body except Exception as e: handler(e)]. *)
Definition try_except {A} (body : M A) (handler : exn -> M A) : M A :=
  fun e s =>
    match body e s with
    | (Return a, s') => (Return a, s')
    | (Raise x, s') => handler x e s'
    end.

Definition emit (ev : event) : M unit :=
  fun _ s => (Return tt, log s [ev]).

Definition read_tts_model : M (option TextToSpeech) :=
  fun _ s => (Return (tts_model s), s).

Definition write_tts_model (v : option TextToSpeech) : M unit :=
  fun _ s => (Return tt, {| tts_model := v; trace := trace s |}).

Definition ask {A} (f : env -> outcome A) : M A :=
  fun e s => (f e, s).

End Pipeline.

Declare Scope py_scope.
Delimit Scope py_scope with py.
Notation "x <- m ;; k" := (bind m (fun x => k))
  (at level 100, m at next level, right associativity) : py_scope.
Notation "m ;; k" := (bind m (fun _ => k))
  (at level 100, right associativity) : py_scope.

Section Program.

Context {NUM : Numeric}.
Local Open Scope py_scope.

(** *** Library and helper calls *)

Definition os_path_exists (p : str) : M bool :=
  emit (EvExists p) ;;
  ask (fun e => Return (fs_exists e p)).

(** [glob.glob(pathname)] for a pathname whose directory part has no
    wildcard and whose last component has one. *)
Definition glob_glob (pathname : str) : M (list str) :=
  emit (EvGlob pathname) ;;
  let (dirname, pattern) := PosixPath.split pathname in
  names <- ask (fun e => Return (fs_scandir e dirname)) ;;
  ret (map (PosixPath.join dirname) (Glob.glob1 names pattern)).

Definition print (line : str) : M unit := emit (EvPrint line).

Definition traceback_print_exc (e : exn) : M unit := emit (EvTraceback e).

Definition load_text_to_speech (dir : str) (use_gpu : bool) : M TextToSpeech :=
  emit (EvLoadTextToSpeech dir use_gpu) ;;
  ask (fun e => helper_load_text_to_speech e dir use_gpu).

Definition load_voice_style (paths : list str) : M Style :=
  emit (EvLoadVoiceStyle paths) ;;
  ask (fun e => helper_load_voice_style e paths).

(** [model(text, style, total_steps, speed)]. *)
Definition call (model : TextToSpeech) (text : str) (style : Style)
    (total_steps : Z) (speed : num) : M (list (list num) * list num) :=
  emit (EvEngineCall model text style total_steps speed) ;;
  ask (fun e => engine_call e model text style total_steps speed).

(** [wav.flatten()]: the rows of the array one after the other. *)
Definition flatten (wav : list (list num)) : list num := concat wav.

(** *** Configuration *)

Definition ONNX_DIR : str := lit "assets/onnx".
Definition VOICE_STYLES_DIR : str := lit "assets/voice_styles".
Definition DEFAULT_STEPS : Z := 5.

(** *** [get_voice_styles] *)

Definition get_voice_styles : M (list str) :=
  ok <- os_path_exists VOICE_STYLES_DIR ;;
  if negb ok then ret []
  else
    files <- glob_glob (PosixPath.join VOICE_STYLES_DIR (lit "*.json")) ;;
    ret (map PosixPath.basename files).

(** *** [load_model] *)

Definition load_model : M TextToSpeech :=
  cur <- read_tts_model ;;
  match cur with
  | None =>
      ok <- os_path_exists ONNX_DIR ;;
      (if negb ok
       then raise (FileNotFoundError
                     (lit "ONNX directory not found at '" ++ ONNX_DIR
                      ++ lit "'. Please ensure assets are correctly linked."))
       else ret tt) ;;
      print (lit "Loading TTS model from " ++ ONNX_DIR ++ lit "...") ;;
      m <- load_text_to_speech ONNX_DIR false ;;
      write_tts_model (Some m) ;;
      print (lit "Model loaded successfully.") ;;
      ret m
  | Some m => ret m
  end.

(** *** [generate_audio] *)

(** The two values [generate_audio] returns: the audio, [None] or
    [(sample_rate, audio_data)], and the status message. *)
Definition result : Type := option (Z * list num) * str.

(** The path [generate_audio] looks the selected style up at. *)
Definition voice_style_path_of (voice_style_name : str) : str :=
  PosixPath.join VOICE_STYLES_DIR voice_style_name.

(** The status message of a successful call. *)
Definition success_message (duration : list num) : str :=
  lit "Generated successfully. Duration: "
    ++ format_2f (np_sum duration) ++ lit "s".

(** The body of the [try] statement.  [voice_style_name] is the value
    of the dropdown: a string, or [None] when nothing is selected. *)
Definition generate_audio_try (text : str) (voice_style_name : option str)
    (speed : num) (total_steps : Z) : M result :=
  if negb (truthy (strip text)) then
    ret (None, lit "Please enter some text.")
  else
    match voice_style_name with
    | None | Some [] => ret (None, lit "Please select a voice style.")
    | Some name =>
        model <- load_model ;;
        let voice_style_path := voice_style_path_of name in
        ok <- os_path_exists voice_style_path ;;
        if negb ok then
          ret (None, lit "Voice style file not found: " ++ voice_style_path)
        else
          style <- load_voice_style [voice_style_path] ;;
          r <- call model text style total_steps speed ;;
          let (wav, duration) := r in
          let audio_data := flatten wav in
          let sample_rate := sample_rate model in
          ret (Some (sample_rate, audio_data), success_message duration)
    end.

Definition generate_audio (text : str) (voice_style_name : option str)
    (speed : num) (total_steps : Z) : M result :=
  try_except
    (generate_audio_try text voice_style_name speed total_steps)
    (fun e =>
       traceback_print_exc e ;;
       ret (None, lit "Error: " ++ str_of_exn e)).

(** What the [except] clause returns and leaves behind. *)
Definition failed (x : exn) (s : state) : outcome result * state :=
  (Return (None, lit "Error: " ++ str_of_exn x), log s [EvTraceback x]).

End Program.

(** ** Sequences of calls

    The server handles one request after the other; the surroundings
    may differ from one call to the next. *)

Section Sequences.

Context {NUM : Numeric}.

Fixpoint run_seq {A} (m : M A) (es : list env) (s : state)
    : list (outcome A) * state :=
  match es with
  | [] => ([], s)
  | e :: es' =>
      let (r, s1) := m e s in
      let (rs, s2) := run_seq m es' s1 in
      (r :: rs, s2)
  end.

(** The inputs of [generate_audio]. *)
Record request : Type := {
  req_text : str;
  req_voice_style_name : option str;
  req_speed : num;
  req_total_steps : Z
}.

(** What the page does with the module: it lists the styles when it is
    built and calls [generate_audio] at every click; [load_model] is
    the third function of the module. *)
Inductive operation : Type :=
| ListStyles
| LoadModel
| Generate (r : request).

(** The state an operation leaves. *)
Definition perform (op : operation) (e : env) (s : state) : state :=
  match op with
  | ListStyles => snd (get_voice_styles e s)
  | LoadModel => snd (load_model e s)
  | Generate r =>
      snd (generate_audio (req_text r) (req_voice_style_name r)
             (req_speed r) (req_total_steps r) e s)
  end.

Fixpoint perform_all (ops : list (env * operation)) (s : state) : state :=
  match ops with
  | [] => s
  | (e, op) :: ops' => perform_all ops' (perform op e s)
  end.

(** Observations on a trace. *)
Definition is_construction (ev : event) : bool :=
  match ev with EvLoadTextToSpeech _ _ => true | _ => false end.

Definition constructions (t : list event) : nat :=
  length (filter is_construction t).

Definition is_engine_call (ev : event) : bool :=
  match ev with EvEngineCall _ _ _ _ _ => true | _ => false end.

Definition engine_calls (t : list event) : nat :=
  length (filter is_engine_call t).

Definition engine_of (ev : event) : option TextToSpeech :=
  match ev with EvEngineCall m _ _ _ _ => Some m | _ => None end.

(** [ev] constructs no engine and calls no other engine than [m]. *)
Definition keeps (m : TextToSpeech) (ev : event) : Prop :=
  is_construction ev = false
  /\ forall m', engine_of ev = Some m' -> m' = m.

End Sequences.

(** ** The page

    What the interface computes before it shows anything: the choices
    and the initial value of the style dropdown.  A click on the button
    hands the values of the text box, the dropdown and the two sliders
    to [generate_audio], in this order. *)

Section Page.

Context {NUM : Numeric}.

(** The initial value of the text box. *)
Definition DEFAULT_TEXT : str :=
  lit "This morning, I took a walk in the park, and the sound of the birds and the breeze was so pleasant that I stopped for a long time just to listen.".

(** [available_styles[0] if available_styles else None]. *)
Definition default_style (available_styles : list str) : option str :=
  match available_styles with
  | [] => None
  | first :: _ => Some first
  end.

(** The [choices] and the [value] the dropdown is built with. *)
Definition voice_style_dropdown : M (list str * option str) :=
  (available_styles <- get_voice_styles ;;
   ret (available_styles, default_style available_styles))%py.

(** Observations on the effects of a request. *)
Definition is_decode (ev : event) : bool :=
  match ev with EvLoadVoiceStyle _ => true | _ => false end.

Definition decodes (t : list event) : nat :=
  length (filter is_decode t).

(** [ev] is an effect of a request for [text] in the style [name]
    with [total_steps] and [speed]: a look-up of the engine directory
    or of the style path, a construction from the engine directory on
    the CPU, a decoding of the one style path, a call of the engine
    with the text, the steps and the speed of the request, or an
    output on the console. *)
Definition serves (text name : str) (total_steps : Z) (speed : num)
    (ev : event) : Prop :=
  match ev with
  | EvExists p => p = ONNX_DIR \/ p = voice_style_path_of name
  | EvGlob _ => False
  | EvPrint _ => True
  | EvLoadTextToSpeech dir use_gpu => dir = ONNX_DIR /\ use_gpu = false
  | EvLoadVoiceStyle paths => paths = [voice_style_path_of name]
  | EvEngineCall _ t _ n v => t = text /\ n = total_steps /\ v = speed
  | EvTraceback _ => True
  end.

(** Two surroundings that differ at most in the engine directory, in
    the construction of the engine and in the listing of directories. *)
Definition same_for_requests (e1 e2 : env) : Prop :=
  (forall p, p <> ONNX_DIR -> fs_exists e1 p = fs_exists e2 p)
  /\ (forall paths,
        helper_load_voice_style e1 paths = helper_load_voice_style e2 paths)
  /\ (forall m t st n v,
        engine_call e1 m t st n v = engine_call e2 m t st n v).

(** A name the listing keeps. *)
Definition visible_json (n : str) : bool :=
  negb (Glob.ishidden n) && endswith n (lit ".json").

End Page.

(** ** A sample deployment, with float64 arrays *)

Module Demo.

Definition engine : TextToSpeech := {| obj_id := 1; sample_rate := 44100 |}.

Definition style : Style := {| style_id := 7 |}.

Definition present : list str :=
  [ ONNX_DIR; VOICE_STYLES_DIR;
    lit "assets/voice_styles/M1.json";
    lit "assets/voice_styles/F1.json";
    lit "assets/voice_styles/.draft.json";
    lit "assets/voice_styles/notes.txt" ].

Definition deployed : @env binary64 := {|
  fs_exists := fun p => existsb (str_eqb p) present;
  fs_scandir := fun p =>
    if str_eqb p VOICE_STYLES_DIR
    then [lit "M1.json"; lit ".draft.json"; lit "notes.txt"; lit "F1.json"]
    else [];
  helper_load_text_to_speech := fun _ _ => Return engine;
  helper_load_voice_style := fun _ => Return style;
  engine_call := fun _ _ _ _ _ =>
    Return ([[0.5; -0.25; 0.125]%float], [1.234; 2.184]%float)
|}.

(** The same deployment before the assets are linked: nothing exists. *)
Definition unlinked : @env binary64 := {|
  fs_exists := fun _ => false;
  fs_scandir := fun _ => [];
  helper_load_text_to_speech := helper_load_text_to_speech deployed;
  helper_load_voice_style := helper_load_voice_style deployed;
  engine_call := engine_call deployed
|}.

(** A deployment whose engine files are broken: every construction,
    decoding and inference raises. *)
Definition broken : @env binary64 := {|
  fs_exists := fs_exists deployed;
  fs_scandir := fs_scandir deployed;
  helper_load_text_to_speech := fun _ _ =>
    Raise (OtherException (lit "RuntimeError") (lit "bad model file"));
  helper_load_voice_style := fun _ =>
    Raise (OtherException (lit "ValueError") (lit "bad style file"));
  engine_call := fun _ _ _ _ _ =>
    Raise (OtherException (lit "RuntimeError") (lit "inference failed"))
|}.

Definition hello : str := lit "Hello there.".

Definition speed : float := DEFAULT_SPEED.

(** A space, a tab, a line feed and an ideographic space. *)
Definition blank : str := [32; 9; 10; 12288]%N.

(** The state once the engine is loaded. *)
Definition warm : @state binary64 :=
  {| tts_model := Some engine; trace := [] |}.

Definition click (text : str) (voice_style_name : option str)
    : @operation binary64 :=
  Generate {| req_text := text;
              req_voice_style_name := voice_style_name;
              req_speed := speed;
              req_total_steps := DEFAULT_STEPS |}.

(** A session after the engine is loaded: a click that fails in the
    engine, a blank click, a listing, a click on a missing style and a
    click that succeeds. *)
Definition session : list (@env binary64 * @operation binary64) :=
  [ (broken, click hello (Some (lit "M1.json")));
    (unlinked, click blank None);
    (unlinked, LoadModel);
    (deployed, ListStyles);
    (deployed, click hello (Some (lit "nope.json")));
    (deployed, click hello (Some (lit "F1.json"))) ].

End Demo.

(** Further surroundings of the same deployment. *)

Module Site.

(** The engine loads, the style files cannot be decoded. *)
Definition bad_styles : @env binary64 := {|
  fs_exists := fs_exists Demo.deployed;
  fs_scandir := fs_scandir Demo.deployed;
  helper_load_text_to_speech := helper_load_text_to_speech Demo.deployed;
  helper_load_voice_style := fun _ =>
    Raise (OtherException (lit "ValueError") (lit "bad style file"));
  engine_call := engine_call Demo.deployed
|}.

(** The deployment after the engine directory was removed and the
    style directory can no longer be listed. *)
Definition engine_dir_removed : @env binary64 := {|
  fs_exists := fun p =>
    if str_eqb p ONNX_DIR then false else fs_exists Demo.deployed p;
  fs_scandir := fun _ => [];
  helper_load_text_to_speech := fun _ _ =>
    Raise (OtherException (lit "RuntimeError") (lit "no model files"));
  helper_load_voice_style := helper_load_voice_style Demo.deployed;
  engine_call := engine_call Demo.deployed
|}.

(** A text with white space around it. *)
Definition padded : str := lit "  Hello there. ".

End Site.

(** * Properties *)

(** ** Strings and paths *)

Section StringFacts.

Lemma forallb_lstrip (s : str) :
  forallb isspace (lstrip s) = forallb isspace s.
Proof.
  induction s as [|c r IH]; simpl; [reflexivity|].
  destruct (isspace c) eqn:E; simpl; [exact IH | now rewrite E].
Qed.

Lemma rstrip_nil (s : str) :
  rstrip s = [] <-> forallb isspace s = true.
Proof.
  induction s as [|c r IH]; simpl; [tauto|].
  destruct (rstrip r) as [|x r'] eqn:R.
  - destruct (isspace c); simpl.
    + split; intros _; [apply IH; reflexivity | reflexivity].
    + split; discriminate.
  - split; [discriminate|].
    rewrite andb_true_iff. intros [_ H]. apply IH in H. discriminate.
Qed.

(** [text.strip()] is empty exactly when every character of [text] is
    white space (the empty text included). *)
Lemma strip_nil (s : str) :
  strip s = [] <-> forallb isspace s = true.
Proof.
  unfold strip. rewrite rstrip_nil. now rewrite forallb_lstrip.
Qed.

Lemma truthy_strip (s : str) :
  truthy (strip s) = negb (forallb isspace s).
Proof.
  destruct (forallb isspace s) eqn:E.
  - apply strip_nil in E. now rewrite E.
  - destruct (strip s) eqn:S; [|reflexivity].
    apply strip_nil in S. congruence.
Qed.

Lemma startswith_iff (s p : str) :
  startswith s p = true <-> exists r, s = p ++ r.
Proof.
  revert s. induction p as [|x p IH]; intros s; simpl.
  - split; [intros _; now exists s | reflexivity].
  - destruct s as [|y s].
    + split; [discriminate | intros [r H]; discriminate].
    + rewrite andb_true_iff, N.eqb_eq, IH. split.
      * intros [-> [r ->]]. now exists r.
      * intros [r H]. injection H as -> ->. split; [reflexivity | now exists r].
Qed.

Lemma endswith_iff (s p : str) :
  endswith s p = true <-> exists a, s = a ++ p.
Proof.
  unfold endswith. rewrite startswith_iff. split.
  - intros [r H]. exists (rev r).
    rewrite <- (rev_involutive s), H, rev_app_distr, rev_involutive.
    reflexivity.
  - intros [a ->]. exists (rev a). now rewrite rev_app_distr.
Qed.

Lemma infixb_iff (sub s : str) :
  infixb sub s = true <-> contains s sub.
Proof.
  unfold contains. induction s as [|c s IH]; cbn [infixb];
    rewrite orb_true_iff, startswith_iff.
  - split.
    + intros [[r H]|H]; [exists [], r; exact H | discriminate].
    + intros (a & b & H). left. destruct a; [now exists b | discriminate].
  - rewrite IH. split.
    + intros [[r H]|(a & b & H)].
      * exists [], r. exact H.
      * exists (c :: a), b. cbn. now rewrite H.
    + intros (a & b & H). destruct a as [|c' a].
      * left. now exists b.
      * right. injection H as _ H. now exists a, b.
Qed.

Lemma not_contains (s sub : str) :
  infixb sub s = false -> ~ contains s sub.
Proof. intros Hb Hc. apply infixb_iff in Hc. congruence. Qed.

Lemma str_eqb_eq (a b : str) : str_eqb a b = true <-> a = b.
Proof.
  revert b. induction a as [|x a IH]; intros [|y b]; cbn [str_eqb];
    try (split; congruence).
  rewrite andb_true_iff, N.eqb_eq, IH. split.
  - intros [-> ->]. reflexivity.
  - intros H. injection H. auto.
Qed.

(** A name that differs from every name of a list is not in it. *)
Lemma not_listed (n : str) (l : list str) :
  existsb (str_eqb n) l = false -> ~ In n l.
Proof.
  intros Hb Hin. assert (H : existsb (str_eqb n) l = true); [|congruence].
  apply existsb_exists. exists n. split; [exact Hin | now apply str_eqb_eq].
Qed.

Lemma rfind_absent (c : codepoint) (s : str) :
  ~ In c s -> rfind c s = (-1)%Z.
Proof.
  induction s as [|x r IH]; simpl; [reflexivity|].
  intros H. rewrite IH by tauto. simpl.
  destruct (N.eqb_spec x c); [exfalso; tauto | reflexivity].
Qed.

Lemma rfind_last (c : codepoint) (a n : str) :
  ~ In c n -> rfind c (a ++ c :: n) = Z.of_nat (length a).
Proof.
  intros H. induction a as [|x a IH].
  - simpl. rewrite (rfind_absent _ _ H). simpl. now rewrite N.eqb_refl.
  - cbn [app rfind length]. rewrite IH.
    destruct (Z.leb_spec 0 (Z.of_nat (length a))); lia.
Qed.

Lemma basename_after_sep (a n : str) :
  ~ In PosixPath.sep n -> PosixPath.basename (a ++ PosixPath.sep :: n) = n.
Proof.
  intros H. unfold PosixPath.basename, slice_from.
  rewrite (rfind_last _ a n H).
  replace (Z.to_nat (Z.of_nat (length a) + 1)) with (length a + 1)%nat by lia.
  rewrite skipn_app, skipn_all2 by lia.
  replace (length a + 1 - length a)%nat with 1%nat by lia.
  reflexivity.
Qed.

(** A relative name is appended to the directory it is joined to. *)
Lemma join_relative (d n : str) :
  startswith n [PosixPath.sep] = false ->
  endswith d [PosixPath.sep] = false -> d <> [] ->
  PosixPath.join d n = d ++ [PosixPath.sep] ++ n.
Proof.
  intros Hn Hd Hne. unfold PosixPath.join. rewrite Hn, Hd.
  destruct d; [congruence | reflexivity].
Qed.

(** An absolute name replaces the directory it is joined to. *)
Lemma join_absolute (d n : str) :
  startswith n [PosixPath.sep] = true -> PosixPath.join d n = n.
Proof.
  intros Hn. unfold PosixPath.join. now rewrite Hn.
Qed.

End StringFacts.

(** ** Patterns *)

Section GlobFacts.

Lemma fnmatch_literal (p n : str) :
  Glob.no_wildcard p = true -> (Glob.fnmatch p n = true <-> n = p).
Proof.
  revert n. induction p as [|x p IH]; intros n Hp.
  - destruct n; simpl; split; congruence.
  - simpl in Hp. apply andb_true_iff in Hp as [Hx Hp].
    apply andb_true_iff in Hx as [Hs Hq].
    apply negb_true_iff in Hs, Hq.
    simpl. rewrite Hs. destruct n as [|c n]; [split; discriminate|].
    rewrite Hq. simpl. rewrite andb_true_iff, N.eqb_eq, (IH n Hp).
    split; [intros [-> ->]; reflexivity | intros H; injection H; auto].
Qed.

Lemma fnmatch_star_unfold (p n : str) :
  Glob.fnmatch (Glob.star :: p) n =
  Glob.fnmatch p n
  || match n with
     | [] => false
     | _ :: n' => Glob.fnmatch (Glob.star :: p) n'
     end.
Proof. destruct n; reflexivity. Qed.

Lemma fnmatch_star (p n : str) :
  Glob.fnmatch (Glob.star :: p) n = true <->
  exists a b, n = a ++ b /\ Glob.fnmatch p b = true.
Proof.
  induction n as [|c n IH]; rewrite fnmatch_star_unfold, orb_true_iff.
  - split.
    + intros [H|H]; [exists [], []; auto | discriminate].
    + intros (a & b & E & H). symmetry in E.
      apply app_eq_nil in E as [-> ->]. now left.
  - rewrite IH. split.
    + intros [H | (a & b & -> & H)].
      * exists [], (c :: n). auto.
      * exists (c :: a), b. auto.
    + intros (a & b & E & H). destruct a as [|c' a].
      * simpl in E. subst b. now left.
      * injection E as -> ->. right. now exists a, b.
Qed.

(** [*suffix] matches the names that end with [suffix]. *)
Lemma fnmatch_star_suffix (suffix n : str) :
  Glob.no_wildcard suffix = true ->
  Glob.fnmatch (Glob.star :: suffix) n = endswith n suffix.
Proof.
  intros Hs. apply eq_true_iff_eq.
  rewrite fnmatch_star, endswith_iff. split.
  - intros (a & b & -> & H). apply (fnmatch_literal _ _ Hs) in H.
    subst b. now exists a.
  - intros [a ->]. exists a, suffix. split; [reflexivity|].
    now apply fnmatch_literal.
Qed.

Lemma filter_filter {A} (f g : A -> bool) (l : list A) :
  filter f (filter g l) = filter (fun x => g x && f x) l.
Proof.
  induction l as [|x l IH]; simpl; [reflexivity|].
  destruct (g x); simpl; [destruct (f x); now rewrite IH | exact IH].
Qed.

(** The pattern of [get_voice_styles] is of the kind [glob_glob]
    covers: a plain directory and a last component with a wildcard. *)
Lemma styles_pattern_shape :
  PosixPath.split (PosixPath.join VOICE_STYLES_DIR (lit "*.json"))
    = (VOICE_STYLES_DIR, lit "*.json")
  /\ Glob.has_magic VOICE_STYLES_DIR = false
  /\ Glob.has_magic (lit "*.json") = true.
Proof. repeat split. Qed.

(** What [glob._glob1] keeps for the pattern [*.json]. *)
Lemma glob1_json (names : list str) :
  Glob.glob1 names (lit "*.json") =
  filter (fun n => negb (Glob.ishidden n) && endswith n (lit ".json")) names.
Proof.
  unfold Glob.glob1.
  change (Glob.ishidden (lit "*.json")) with false. cbn [negb].
  rewrite filter_filter. apply filter_ext. intros n. f_equal.
  change (lit "*.json") with (Glob.star :: lit ".json").
  now apply fnmatch_star_suffix.
Qed.

Lemma basename_join_names (d : str) (names : list str) :
  d <> [] -> endswith d [PosixPath.sep] = false ->
  (forall n, In n names -> ~ In PosixPath.sep n) ->
  map PosixPath.basename (map (PosixPath.join d) names) = names.
Proof.
  intros Hd He Hn. rewrite map_map.
  rewrite <- (map_id names) at 2. apply map_ext_in. intros n Hin.
  assert (Hs : startswith n [PosixPath.sep] = false).
  { destruct n as [|c n]; [reflexivity|]. cbn [startswith].
    destruct (N.eqb_spec PosixPath.sep c) as [<-|]; [|reflexivity].
    exfalso. apply (Hn _ Hin). now left. }
  rewrite (join_relative d n Hs He Hd).
  apply basename_after_sep. simpl. now apply Hn.
Qed.

End GlobFacts.

(** ** The pipeline, call by call *)

Ltac py_unfold :=
  unfold os_path_exists, load_text_to_speech, load_voice_style, call, print,
    traceback_print_exc, try_except, bind, ret, raise, emit, ask,
    read_tts_model, write_tts_model.

Section CallFacts.

Context {NUM : Numeric}.

Lemma log_log (s : state) (a b : list event) :
  log (log s a) b = log s (a ++ b).
Proof. unfold log. simpl. now rewrite app_assoc. Qed.

Lemma log_nil (s : state) : log s [] = s.
Proof. destruct s. unfold log. simpl. now rewrite app_nil_r. Qed.

(** [load_model] when the engine is already there. *)
Lemma load_model_warm (e : env) (s : state) (m : TextToSpeech) :
  tts_model s = Some m -> load_model e s = (Return m, s).
Proof.
  intros H. unfold load_model. py_unfold. now rewrite H.
Qed.

(** [load_model] on a cold start, by what it finds. *)
Lemma load_model_cold (e : env) (s : state) :
  tts_model s = None ->
  load_model e s =
  if fs_exists e ONNX_DIR then
    match helper_load_text_to_speech e ONNX_DIR false with
    | Return m =>
        (Return m,
         {| tts_model := Some m;
            trace := trace s ++
              [EvExists ONNX_DIR;
               EvPrint (lit "Loading TTS model from assets/onnx...");
               EvLoadTextToSpeech ONNX_DIR false;
               EvPrint (lit "Model loaded successfully.")] |})
    | Raise x =>
        (Raise x,
         log s [EvExists ONNX_DIR;
                EvPrint (lit "Loading TTS model from assets/onnx...");
                EvLoadTextToSpeech ONNX_DIR false])
    end
  else
    (Raise (FileNotFoundError
              (lit "ONNX directory not found at 'assets/onnx'. Please ensure assets are correctly linked.")),
     log s [EvExists ONNX_DIR]).
Proof.
  intros H. unfold load_model. py_unfold. rewrite H. cbn.
  destruct (fs_exists e ONNX_DIR); cbn; [|reflexivity].
  destruct (helper_load_text_to_speech e ONNX_DIR false); cbn.
  - unfold log. cbn. rewrite <- !app_assoc. reflexivity.
  - rewrite !log_log. reflexivity.
Qed.

Lemma constructions_app (t u : list event) :
  constructions (t ++ u) = (constructions t + constructions u)%nat.
Proof. unfold constructions. now rewrite filter_app, length_app. Qed.

Lemma engine_calls_app (t u : list event) :
  engine_calls (t ++ u) = (engine_calls t + engine_calls u)%nat.
Proof. unfold engine_calls. now rewrite filter_app, length_app. Qed.

(** [load_model] does not call the engine. *)
Lemma load_model_no_engine_call (e : env) (s : state) :
  engine_calls (trace (snd (load_model e s))) = engine_calls (trace s).
Proof.
  destruct (tts_model s) as [m|] eqn:Hm.
  - now rewrite (load_model_warm e s m Hm).
  - rewrite (load_model_cold e s Hm).
    destruct (fs_exists e ONNX_DIR);
      [destruct (helper_load_text_to_speech e ONNX_DIR false)|];
      cbn [snd log trace]; rewrite engine_calls_app; cbn; lia.
Qed.

(** [get_voice_styles], by what it finds. *)
Lemma get_voice_styles_unfold (e : env) (s : state) :
  get_voice_styles e s =
  if fs_exists e VOICE_STYLES_DIR then
    (Return (map PosixPath.basename
               (map (PosixPath.join VOICE_STYLES_DIR)
                  (Glob.glob1 (fs_scandir e VOICE_STYLES_DIR)
                     (lit "*.json")))),
     log s [EvExists VOICE_STYLES_DIR;
            EvGlob (lit "assets/voice_styles/*.json")])
  else (Return [], log s [EvExists VOICE_STYLES_DIR]).
Proof.
  unfold get_voice_styles, glob_glob. py_unfold. cbn.
  destruct (fs_exists e VOICE_STYLES_DIR); cbn; [|reflexivity].
  change (PosixPath.split (PosixPath.join VOICE_STYLES_DIR (lit "*.json")))
    with (VOICE_STYLES_DIR, lit "*.json").
  cbn. now rewrite log_log.
Qed.

(** [generate_audio] stops at a blank text. *)
Lemma generate_audio_blank (e : env) (s : state) (text : str)
    (voice_style_name : option str) (speed : num) (total_steps : Z) :
  forallb isspace text = true ->
  generate_audio text voice_style_name speed total_steps e s =
  (Return (None, lit "Please enter some text."), s).
Proof.
  intros H. unfold generate_audio, generate_audio_try.
  rewrite truthy_strip, H. reflexivity.
Qed.

(** [generate_audio] stops at a missing selection. *)
Lemma generate_audio_unselected (e : env) (s : state) (text : str)
    (voice_style_name : option str) (speed : num) (total_steps : Z) :
  forallb isspace text = false ->
  voice_style_name = None \/ voice_style_name = Some [] ->
  generate_audio text voice_style_name speed total_steps e s =
  (Return (None, lit "Please select a voice style."), s).
Proof.
  intros H Hn. unfold generate_audio, generate_audio_try.
  rewrite truthy_strip, H. destruct Hn as [-> | ->]; reflexivity.
Qed.

(** [generate_audio] past its two validations, by what it meets. *)
Lemma generate_audio_selected (e : env) (s : state) (text name : str)
    (speed : num) (total_steps : Z) :
  forallb isspace text = false -> name <> [] ->
  generate_audio text (Some name) speed total_steps e s =
  match load_model e s with
  | (Raise x, s1) => failed x s1
  | (Return model, s1) =>
      let path := voice_style_path_of name in
      if fs_exists e path then
        match helper_load_voice_style e [path] with
        | Raise x =>
            failed x (log s1 [EvExists path; EvLoadVoiceStyle [path]])
        | Return style =>
            let evs := [EvExists path; EvLoadVoiceStyle [path];
                        EvEngineCall model text style total_steps speed] in
            match engine_call e model text style total_steps speed with
            | Raise x => failed x (log s1 evs)
            | Return (wav, duration) =>
                (Return (Some (sample_rate model, flatten wav),
                         success_message duration),
                 log s1 evs)
            end
        end
      else
        (Return (None, lit "Voice style file not found: " ++ path),
         log s1 [EvExists path])
  end.
Proof.
  intros H Hn. unfold generate_audio, generate_audio_try, failed.
  rewrite truthy_strip, H. destruct name as [|c name]; [congruence|].
  cbn [negb]. py_unfold.
  destruct (load_model e s) as [[model|x] s1]; [|reflexivity].
  cbn. destruct (fs_exists e (voice_style_path_of (c :: name))); cbn;
    [|reflexivity].
  destruct (helper_load_voice_style e _) as [style|x]; cbn;
    [|now rewrite !log_log].
  destruct (engine_call e model text style total_steps speed)
    as [[wav duration]|x]; cbn; now rewrite !log_log.
Qed.

End CallFacts.

(** ** The orchestrator: validation and failures *)

Section Orchestrator.

Context {NUM : Numeric}.

(** C4. A request whose text is empty or made of white space only is
    answered with the failure "Please enter some text." and leaves the
    state as it was: no file is looked up, no model is loaded and the
    engine is not called, whatever the selected style and whatever the
    surroundings are. *)
Theorem blank_text_stops_the_call (e : env) (s : state) (text : str)
    (voice_style_name : option str) (speed : num) (total_steps : Z) :
  forallb isspace text = true ->
  fst (generate_audio text voice_style_name speed total_steps e s)
    = Return (None, lit "Please enter some text.")
  /\ snd (generate_audio text voice_style_name speed total_steps e s) = s.
Proof.
  intros Hblank.
  rewrite (generate_audio_blank e s text voice_style_name speed total_steps
             Hblank).
  split; reflexivity.
Qed.

Lemma generate_audio_returns (e : env) (s : state) (text : str)
    (voice_style_name : option str) (speed : num) (total_steps : Z) :
  exists r, fst (generate_audio text voice_style_name speed total_steps e s)
            = Return r.
Proof.
  destruct (forallb isspace text) eqn:Hblank.
  - rewrite generate_audio_blank by assumption. eexists; reflexivity.
  - destruct voice_style_name as [[|c name]|].
    + rewrite generate_audio_unselected by auto. eexists; reflexivity.
    + rewrite generate_audio_selected by (assumption || discriminate).
      unfold failed.
      destruct (load_model e s) as [[model|x] s1]; [|eexists; reflexivity].
      cbv zeta. destruct (fs_exists e _); [|eexists; reflexivity].
      destruct (helper_load_voice_style e _) as [style|x]; [|eexists; reflexivity].
      destruct (engine_call e model text style total_steps speed)
        as [[wav duration]|x]; eexists; reflexivity.
    + rewrite generate_audio_unselected by auto. eexists; reflexivity.
Qed.

(** C6. [generate_audio] always returns: whatever its inputs and its
    surroundings, the call ends with a pair and not with an exception.
    An exception raised in the [try] block, be it by the engine
    acquisition, by the style decoding or by the inference, ends the
    call with no audio and the message "Error: " followed by [str(e)];
    the traceback is the last effect of the call and goes to the log,
    not into the message. *)
Theorem generate_audio_never_raises (e : env) (s : state) (text : str)
    (voice_style_name : option str) (speed : num) (total_steps : Z) :
  (exists r, fst (generate_audio text voice_style_name speed total_steps e s)
             = Return r)
  /\ (forall x s1,
        generate_audio_try text voice_style_name speed total_steps e s
          = (Raise x, s1) ->
        generate_audio text voice_style_name speed total_steps e s
          = (Return (None, lit "Error: " ++ str_of_exn x),
             log s1 [EvTraceback x]))
  /\ (forall name x s1,
        voice_style_name = Some name ->
        forallb isspace text = false -> name <> [] ->
        load_model e s = (Raise x, s1) ->
        generate_audio text voice_style_name speed total_steps e s
          = (Return (None, lit "Error: " ++ str_of_exn x),
             log s1 [EvTraceback x]))
  /\ (forall name model x s1,
        voice_style_name = Some name ->
        forallb isspace text = false -> name <> [] ->
        load_model e s = (Return model, s1) ->
        fs_exists e (voice_style_path_of name) = true ->
        helper_load_voice_style e [voice_style_path_of name] = Raise x ->
        generate_audio text voice_style_name speed total_steps e s
          = (Return (None, lit "Error: " ++ str_of_exn x),
             log s1 [EvExists (voice_style_path_of name);
                     EvLoadVoiceStyle [voice_style_path_of name];
                     EvTraceback x]))
  /\ (forall name model style x s1,
        voice_style_name = Some name ->
        forallb isspace text = false -> name <> [] ->
        load_model e s = (Return model, s1) ->
        fs_exists e (voice_style_path_of name) = true ->
        helper_load_voice_style e [voice_style_path_of name] = Return style ->
        engine_call e model text style total_steps speed = Raise x ->
        generate_audio text voice_style_name speed total_steps e s
          = (Return (None, lit "Error: " ++ str_of_exn x),
             log s1 [EvExists (voice_style_path_of name);
                     EvLoadVoiceStyle [voice_style_path_of name];
                     EvEngineCall model text style total_steps speed;
                     EvTraceback x])).
Proof.
  split; [apply generate_audio_returns|].
  split.
  { intros x s1 Htry. unfold generate_audio, try_except. rewrite Htry.
    reflexivity. }
  split; [|split].
  - intros name x s1 -> Htext Hname Hload.
    rewrite generate_audio_selected, Hload by assumption. reflexivity.
  - intros name model x s1 -> Htext Hname Hload Hfile Hstyle.
    rewrite generate_audio_selected, Hload by assumption. cbv zeta.
    rewrite Hfile, Hstyle. unfold failed. now rewrite log_log.
  - intros name model style x s1 -> Htext Hname Hload Hfile Hstyle Hcall.
    rewrite generate_audio_selected, Hload by assumption. cbv zeta.
    rewrite Hfile, Hstyle, Hcall. unfold failed. now rewrite log_log.
Qed.

(** C2, as the code has it.  A request with a text, a selected style
    and an engine that could be acquired, whose style path does not
    exist on disk, is answered with the failure "Voice style file not
    found: " followed by that path; after the engine acquisition the
    call only looks the path up: the style is not decoded and the
    engine is not called. *)
Theorem missing_style_file_reported (e : env) (s : state)
    (text name : str) (speed : num) (total_steps : Z)
    (model : TextToSpeech) :
  forallb isspace text = false -> name <> [] ->
  fst (load_model e s) = Return model ->
  fs_exists e (voice_style_path_of name) = false ->
  let path := voice_style_path_of name in
  let s' := snd (generate_audio text (Some name) speed total_steps e s) in
  fst (generate_audio text (Some name) speed total_steps e s)
    = Return (None, lit "Voice style file not found: " ++ path)
  /\ contains (lit "Voice style file not found: " ++ path) path
  /\ trace s' = trace (snd (load_model e s)) ++ [EvExists path]
  /\ engine_calls (trace s') = engine_calls (trace s).
Proof.
  intros Htext Hname Hload Hfile path s'. subst s'.
  pose proof (load_model_no_engine_call e s) as Hcalls.
  rewrite generate_audio_selected by assumption.
  destruct (load_model e s) as [o s1]. simpl in Hload, Hcalls. subst o.
  cbv zeta. rewrite Hfile. cbn [fst snd]. split; [reflexivity|]. split.
  - exists (lit "Voice style file not found: "), []. now rewrite app_nil_r.
  - split; [reflexivity|].
    unfold log. cbn [trace]. rewrite engine_calls_app, Hcalls. cbn. lia.
Qed.

End Orchestrator.

(** ** The model lifecycle *)

Section Lifecycle.

Context {NUM : Numeric}.

(** Calls of [load_model] on a loaded engine. *)
Lemma run_seq_warm (es : list env) (s : state) (m : TextToSpeech) :
  tts_model s = Some m ->
  run_seq load_model es s = (repeat (Return m) (length es), s).
Proof.
  intros Hm. induction es as [|e es IH]; [reflexivity|].
  cbn [run_seq length repeat].
  now rewrite (load_model_warm e s m Hm), IH.
Qed.

(** Calls of [load_model] while the engine directory is absent. *)
Lemma run_seq_absent (es : list env) (s : state) :
  tts_model s = None ->
  Forall (fun e => fs_exists e ONNX_DIR = false) es ->
  fst (run_seq load_model es s)
    = repeat
        (Raise (FileNotFoundError
           (lit "ONNX directory not found at 'assets/onnx'. Please ensure assets are correctly linked.")))
        (length es)
  /\ tts_model (snd (run_seq load_model es s)) = None
  /\ constructions (trace (snd (run_seq load_model es s)))
     = constructions (trace s).
Proof.
  intros Hm Hes. revert s Hm.
  induction Hes as [|e es He _ IH]; intros s Hm; [auto|].
  cbn [run_seq]. rewrite (load_model_cold e s Hm), He.
  destruct (IH (log s [EvExists ONNX_DIR]) Hm) as (Hr & Ht & Hc).
  destruct (run_seq load_model es (log s [EvExists ONNX_DIR])) as [rs s2].
  cbn [fst snd] in *. rewrite Hr, Ht, Hc. cbn [length repeat log trace].
  rewrite constructions_app. cbn. repeat split; lia.
Qed.

(** C1, as the code has it.  On a cold start without the engine
    directory [load_model] raises [FileNotFoundError] with a message
    that carries the configured path, and stores nothing in
    [tts_model].  The check is made again by every call that finds
    [tts_model] empty: the calls that follow fail the same way as long
    as the directory is absent, and the first call that finds the
    directory constructs the engine, stores it and returns it. *)
Theorem missing_engine_directory (e : env) (es : list env) (s : state) :
  tts_model s = None ->
  fs_exists e ONNX_DIR = false ->
  Forall (fun e' => fs_exists e' ONNX_DIR = false) es ->
  let msg := lit "ONNX directory not found at 'assets/onnx'. Please ensure assets are correctly linked." in
  let s1 := snd (run_seq load_model (e :: es) s) in
  fst (load_model e s) = Raise (FileNotFoundError msg)
  /\ contains msg ONNX_DIR
  /\ tts_model (snd (load_model e s)) = None
  /\ fst (run_seq load_model (e :: es) s)
     = repeat (Raise (FileNotFoundError msg)) (S (length es))
  /\ tts_model s1 = None
  /\ constructions (trace s1) = constructions (trace s)
  /\ (forall e2 m,
        fs_exists e2 ONNX_DIR = true ->
        helper_load_text_to_speech e2 ONNX_DIR false = Return m ->
        fst (load_model e2 s1) = Return m
        /\ tts_model (snd (load_model e2 s1)) = Some m).
Proof.
  intros Hm He Hes msg s1.
  assert (Hall : Forall (fun e' => fs_exists e' ONNX_DIR = false) (e :: es))
    by now constructor.
  destruct (run_seq_absent (e :: es) s Hm Hall) as (Hr & Ht & Hc).
  fold s1 in Ht, Hc. rewrite (load_model_cold e s Hm), He.
  repeat split; try assumption.
  - exists (lit "ONNX directory not found at '"),
      (lit "'. Please ensure assets are correctly linked.").
    reflexivity.
  - intros. rewrite (load_model_cold e2 s1 Ht).
    now replace (fs_exists e2 ONNX_DIR) with true;
      replace (helper_load_text_to_speech e2 ONNX_DIR false) with (Return m).
  - intros. rewrite (load_model_cold e2 s1 Ht).
    now replace (fs_exists e2 ONNX_DIR) with true;
      replace (helper_load_text_to_speech e2 ONNX_DIR false) with (Return m).
Qed.

(** C5. When the first call of [load_model] finds the engine directory
    and the construction succeeds, any number of sequential calls
    performs that one construction and no other, and every call returns
    the object the construction made, whatever the surroundings of the
    later calls are. *)
Theorem load_model_constructs_once (e : env) (es : list env) (s : state)
    (m : TextToSpeech) :
  tts_model s = None ->
  fs_exists e ONNX_DIR = true ->
  helper_load_text_to_speech e ONNX_DIR false = Return m ->
  let s' := snd (run_seq load_model (e :: es) s) in
  fst (run_seq load_model (e :: es) s) = repeat (Return m) (S (length es))
  /\ constructions (trace s') = S (constructions (trace s))
  /\ tts_model s' = Some m.
Proof.
  intros Hm He Hload s'. subst s'. cbn [run_seq].
  rewrite (load_model_cold e s Hm), He, Hload.
  rewrite run_seq_warm with (m := m) by reflexivity.
  cbn [fst snd trace tts_model repeat].
  rewrite constructions_app. cbn. repeat split. lia.
Qed.

Lemma voice_style_path_not_onnx (name : str) :
  voice_style_path_of name <> ONNX_DIR.
Proof.
  unfold voice_style_path_of, PosixPath.join.
  destruct (startswith name [PosixPath.sep]) eqn:E.
  - intros ->. vm_compute in E. discriminate.
  - change (negb (truthy VOICE_STYLES_DIR)
            || endswith VOICE_STYLES_DIR [PosixPath.sep]) with false.
    cbv iota. intros H. vm_compute in H. discriminate.
Qed.

(** Where the look-up of [path] may stand in a trace: not before the
    third event of a cold [load_model] that went as far as the
    construction. *)
Ltac locate_lookup name :=
  repeat match goal with
  | H : _ = ?pre ++ EvExists _ :: _ |- _ =>
      destruct pre as [|? pre]; cbn [app] in H;
      [ try discriminate H; injection H as H _;
        exfalso; symmetry in H; now apply (voice_style_path_not_onnx name) in H
      | try discriminate H; injection H as <- H; try (cbn [In]; tauto) ]
  end.

(** C9. A request that passes the two validations on a cold start
    reaches the look-up of its style path only after the engine was
    constructed: in the effects of the call every [os.path.exists] of
    the style path comes after the call of [load_text_to_speech].  So
    a request that names a missing style file, where the engine
    directory exists and the construction succeeds, constructs and
    stores the engine and then returns "Voice style file not found". *)
Theorem engine_loaded_before_style_lookup (e : env) (s : state)
    (text name : str) (speed : num) (total_steps : Z) :
  tts_model s = None ->
  forallb isspace text = false -> name <> [] ->
  let path := voice_style_path_of name in
  let s' := snd (generate_audio text (Some name) speed total_steps e s) in
  (forall pre post,
      trace s' = trace s ++ pre ++ EvExists path :: post ->
      In (EvLoadTextToSpeech ONNX_DIR false) pre)
  /\ (forall m,
        fs_exists e ONNX_DIR = true ->
        helper_load_text_to_speech e ONNX_DIR false = Return m ->
        fs_exists e path = false ->
        fst (generate_audio text (Some name) speed total_steps e s)
          = Return (None, lit "Voice style file not found: " ++ path)
        /\ s' = {| tts_model := Some m;
                   trace := trace s ++
                     [EvExists ONNX_DIR;
                      EvPrint (lit "Loading TTS model from assets/onnx...");
                      EvLoadTextToSpeech ONNX_DIR false;
                      EvPrint (lit "Model loaded successfully.");
                      EvExists path] |}).
Proof.
  intros Hm Htext Hname path s'. subst s'.
  rewrite generate_audio_selected, (load_model_cold e s Hm) by assumption.
  fold path. split.
  - intros pre post.
    destruct (fs_exists e ONNX_DIR);
      [destruct (helper_load_text_to_speech e ONNX_DIR false) as [m|x]|];
      cbv zeta; unfold failed;
      [destruct (fs_exists e path);
       [destruct (helper_load_voice_style e [path]) as [style|x];
        [destruct (engine_call e m text style total_steps speed)
           as [[wav duration]|x]|]|]| |];
      cbn [snd log trace tts_model]; rewrite <- ?app_assoc;
      intros H; apply app_inv_head in H; cbn [app] in H;
      subst path; locate_lookup name.
  - intros m He Hload Hfile. rewrite He, Hload. cbv zeta. rewrite Hfile.
    cbn [fst snd]. split; [reflexivity|].
    unfold log. cbn [tts_model trace]. now rewrite <- app_assoc.
Qed.

(** No operation on a loaded engine constructs one or calls another. *)
Lemma perform_warm (op : operation) (e : env) (s : state)
    (m : TextToSpeech) :
  tts_model s = Some m ->
  exists evs, perform op e s = log s evs /\ Forall (keeps m) evs.
Proof.
  intros Hm. destruct op as [| |r]; cbn [perform].
  - rewrite get_voice_styles_unfold.
    destruct (fs_exists e VOICE_STYLES_DIR); eexists; (split; [reflexivity|]);
      repeat constructor; discriminate.
  - rewrite (load_model_warm e s m Hm). exists []. now rewrite log_nil.
  - destruct r as [text voice speed steps]. cbn.
    destruct (forallb isspace text) eqn:Htext.
    { rewrite generate_audio_blank by assumption.
      exists []. now rewrite log_nil. }
    destruct voice as [[|c name]|];
      try (rewrite generate_audio_unselected by auto;
           exists []; now rewrite log_nil).
    rewrite generate_audio_selected, (load_model_warm e s m Hm)
      by (assumption || discriminate).
    cbv zeta. unfold failed.
    destruct (fs_exists e _);
      [destruct (helper_load_voice_style e _) as [style|x];
       [destruct (engine_call e m text style steps speed)
          as [[wav duration]|x]|]|];
      cbn [snd]; rewrite ?log_log; eexists; (split; [reflexivity|]);
      repeat constructor; cbn; congruence.
Qed.

(** C10. Once [tts_model] holds an engine, no sequence of operations
    of the module, in whatever surroundings and whether the calls
    succeed or fail, changes it: the state they leave holds the same
    engine, they construct no engine, and every call of the engine
    among their effects is a call of that one. *)
Theorem loaded_engine_is_kept (ops : list (env * operation)) (s : state)
    (m : TextToSpeech) :
  tts_model s = Some m ->
  let s' := perform_all ops s in
  tts_model s' = Some m
  /\ constructions (trace s') = constructions (trace s)
  /\ exists evs, trace s' = trace s ++ evs /\ Forall (keeps m) evs.
Proof.
  intros Hm s'. subst s'.
  assert (H : exists evs,
             perform_all ops s = log s evs /\ Forall (keeps m) evs).
  { revert s Hm. induction ops as [|[e op] ops IH]; intros s Hm.
    - exists []. now rewrite log_nil.
    - cbn [perform_all].
      destruct (perform_warm op e s m Hm) as (evs1 & -> & H1).
      destruct (IH (log s evs1) Hm) as (evs2 & -> & H2).
      exists (evs1 ++ evs2). rewrite log_log. split; [reflexivity|].
      now apply Forall_app. }
  destruct H as (evs & -> & Hevs). cbn [log tts_model trace].
  split; [exact Hm|]. split; [|now exists evs].
  rewrite constructions_app.
  assert (Hz : constructions evs = 0%nat).
  { clear -Hevs. induction Hevs as [|ev evs [Hc _] _ IH]; [reflexivity|].
    unfold constructions in *. cbn [filter]. now rewrite Hc. }
  lia.
Qed.

End Lifecycle.

(** ** The style assets and the status message *)

Section Assets.

Context {NUM : Numeric}.

(** C3, as the code has it.  The style path is
    [os.path.join(VOICE_STYLES_DIR, name)] with the relative directory
    "assets/voice_styles": for a name that does not start with "/" it
    is the directory, "/" and the name, a path relative to the working
    directory and not an absolute one; a name that starts with "/" is
    its own path. *)
Theorem voice_style_path_is_joined (name : str) :
  (startswith name [PosixPath.sep] = false ->
   voice_style_path_of name = VOICE_STYLES_DIR ++ [PosixPath.sep] ++ name
   /\ PosixPath.isabs (voice_style_path_of name) = false)
  /\ (startswith name [PosixPath.sep] = true ->
      voice_style_path_of name = name).
Proof.
  unfold voice_style_path_of. split.
  - intros Hrel.
    rewrite (join_relative VOICE_STYLES_DIR name Hrel)
      by (reflexivity || discriminate).
    split; reflexivity.
  - apply join_absolute.
Qed.

(** C8, as the code has it.  Without the style directory
    [get_voice_styles] returns the empty list.  With it, it returns the
    names of the directory that end with ".json" and do not start with
    a dot, as the directory gives them and in its order: base names,
    with no directory in front. *)
Theorem get_voice_styles_lists_visible_json (e : env) (s : state) :
  (fs_exists e VOICE_STYLES_DIR = false ->
   fst (get_voice_styles e s) = Return [])
  /\ (fs_exists e VOICE_STYLES_DIR = true ->
      (forall n, In n (fs_scandir e VOICE_STYLES_DIR) ->
                 ~ In PosixPath.sep n) ->
      fst (get_voice_styles e s)
        = Return (filter (fun n => negb (Glob.ishidden n)
                                   && endswith n (lit ".json"))
                    (fs_scandir e VOICE_STYLES_DIR))).
Proof.
  rewrite get_voice_styles_unfold. split; intros Hdir; rewrite Hdir.
  - reflexivity.
  - intros Hnames. cbn [fst]. f_equal.
    rewrite basename_join_names; [apply glob1_json | discriminate
                                 | reflexivity |].
    intros n Hin. apply Hnames. rewrite glob1_json in Hin.
    now apply filter_In in Hin.
Qed.

End Assets.

(** C7, as the code has it.  The status message of a successful call
    is "Generated successfully. Duration: ", the sum of the durations
    the engine returned, formatted with two decimals, and "s"; the
    audio is the engine's sample rate with the flattened samples.  For
    the float64 durations 1.234 and 2.184 the message is "Generated
    successfully. Duration: 3.42s". *)
Theorem success_status_message :
  (forall (NUM : Numeric) (e : env) (s : state) (text : str)
          (voice_style_name : option str) (speed : num) (total_steps : Z)
          (audio : Z * list num) (status : str),
      fst (generate_audio text voice_style_name speed total_steps e s)
        = Return (Some audio, status) ->
      exists name model style wav duration,
        voice_style_name = Some name
        /\ fst (load_model e s) = Return model
        /\ helper_load_voice_style e [voice_style_path_of name]
           = Return style
        /\ engine_call e model text style total_steps speed
           = Return (wav, duration)
        /\ audio = (sample_rate model, flatten wav)
        /\ status = lit "Generated successfully. Duration: "
                      ++ format_2f (np_sum duration) ++ lit "s")
  /\ @success_message binary64 [1.234; 2.184]%float
     = lit "Generated successfully. Duration: 3.42s".
Proof.
  split; [|reflexivity].
  intros NUM e s text voice speed steps audio status.
  destruct (forallb isspace text) eqn:Htext.
  { rewrite generate_audio_blank by assumption. discriminate. }
  destruct voice as [[|c name]|];
    try (rewrite generate_audio_unselected by auto; discriminate).
  rewrite generate_audio_selected by (assumption || discriminate).
  unfold failed. destruct (load_model e s) as [[model|x] s1];
    [|discriminate].
  cbv zeta. destruct (fs_exists e _); [|discriminate].
  destruct (helper_load_voice_style e _) as [style|x] eqn:Hstyle;
    [|discriminate].
  destruct (engine_call e model text style steps speed)
    as [[wav duration]|x] eqn:Hcall; [|discriminate].
  cbn [fst]. intros H. injection H as <- <-.
  exists (c :: name), model, style, wav, duration.
  repeat split; assumption.
Qed.

(** ** The sample deployment *)

Import Demo.

Lemma blank_text_stops_the_call_sample :
  forallb isspace blank = true
  /\ fst (generate_audio blank (Some (lit "nope.json")) speed 5
            broken initial_state)
     = Return (None, lit "Please enter some text.")
  /\ snd (generate_audio blank (Some (lit "nope.json")) speed 5
            broken initial_state)
     = initial_state.
Proof.
  split; [reflexivity|].
  apply (blank_text_stops_the_call broken initial_state blank
           (Some (lit "nope.json")) speed 5).
  reflexivity.
Defined.

Lemma generate_audio_never_raises_sample :
  generate_audio hello (Some (lit "M1.json")) speed 5 broken initial_state
  = (Return (None, lit "Error: bad model file"),
     {| tts_model := None;
        trace := [EvExists ONNX_DIR;
                  EvPrint (lit "Loading TTS model from assets/onnx...");
                  EvLoadTextToSpeech ONNX_DIR false;
                  EvTraceback (OtherException (lit "RuntimeError")
                                 (lit "bad model file"))] |}).
Proof.
  destruct (generate_audio_never_raises broken initial_state hello
              (Some (lit "M1.json")) speed 5) as (_ & _ & Hload & _).
  apply (Hload (lit "M1.json")
           (OtherException (lit "RuntimeError") (lit "bad model file"))
           (log initial_state
              [EvExists ONNX_DIR;
               EvPrint (lit "Loading TTS model from assets/onnx...");
               EvLoadTextToSpeech ONNX_DIR false]));
    try reflexivity.
  discriminate.
Defined.

Lemma missing_style_file_reported_sample :
  fst (generate_audio hello (Some (lit "nope.json")) speed 5
         deployed initial_state)
  = Return (None,
            lit "Voice style file not found: assets/voice_styles/nope.json")
  /\ engine_calls
       (trace (snd (generate_audio hello (Some (lit "nope.json")) speed 5
                      deployed initial_state)))
     = 0%nat.
Proof.
  destruct (missing_style_file_reported deployed initial_state hello
              (lit "nope.json") speed 5 engine)
    as (Hmsg & _ & _ & Hcalls); try reflexivity; [discriminate|].
  split; [exact Hmsg | exact Hcalls].
Defined.

Lemma missing_engine_directory_sample :
  fst (run_seq load_model [unlinked; unlinked] initial_state)
  = repeat
      (Raise (FileNotFoundError
         (lit "ONNX directory not found at 'assets/onnx'. Please ensure assets are correctly linked.")))
      2
  /\ fst (load_model deployed
            (snd (run_seq load_model [unlinked; unlinked] initial_state)))
     = Return engine.
Proof.
  destruct (missing_engine_directory unlinked [unlinked] initial_state)
    as (_ & _ & _ & Hseq & _ & _ & Hlater);
    [reflexivity | reflexivity | repeat constructor |].
  split; [exact Hseq|].
  apply (Hlater deployed engine); reflexivity.
Defined.

Lemma load_model_constructs_once_sample :
  fst (run_seq load_model [deployed; unlinked; broken] initial_state)
  = [Return engine; Return engine; Return engine]
  /\ constructions
       (trace (snd (run_seq load_model [deployed; unlinked; broken]
                      initial_state)))
     = 1%nat
  /\ tts_model (snd (run_seq load_model [deployed; unlinked; broken]
                       initial_state))
     = Some engine.
Proof.
  apply (load_model_constructs_once deployed [unlinked; broken]
           initial_state engine); reflexivity.
Defined.

Lemma engine_loaded_before_style_lookup_sample :
  fst (generate_audio hello (Some (lit "nope.json")) speed 5
         deployed initial_state)
  = Return (None,
            lit "Voice style file not found: assets/voice_styles/nope.json")
  /\ snd (generate_audio hello (Some (lit "nope.json")) speed 5
            deployed initial_state)
     = {| tts_model := Some engine;
          trace := [EvExists ONNX_DIR;
                    EvPrint (lit "Loading TTS model from assets/onnx...");
                    EvLoadTextToSpeech ONNX_DIR false;
                    EvPrint (lit "Model loaded successfully.");
                    EvExists (lit "assets/voice_styles/nope.json")] |}.
Proof.
  destruct (engine_loaded_before_style_lookup deployed initial_state hello
              (lit "nope.json") speed 5) as (_ & Hcold);
    [reflexivity | reflexivity | discriminate |].
  apply (Hcold engine); reflexivity.
Defined.

Lemma loaded_engine_is_kept_sample :
  tts_model (perform_all session warm) = Some engine
  /\ constructions (trace (perform_all session warm)) = 0%nat
  /\ exists evs,
       trace (perform_all session warm) = evs /\ Forall (keeps engine) evs.
Proof.
  apply (loaded_engine_is_kept session warm engine). reflexivity.
Defined.

Lemma voice_style_path_is_joined_sample :
  @voice_style_path_of (lit "M1.json") = lit "assets/voice_styles/M1.json"
  /\ PosixPath.isabs (voice_style_path_of (lit "M1.json")) = false.
Proof.
  apply (voice_style_path_is_joined (lit "M1.json")). reflexivity.
Defined.

Lemma get_voice_styles_lists_visible_json_sample :
  fst (get_voice_styles deployed initial_state)
  = Return [lit "M1.json"; lit "F1.json"].
Proof.
  apply (proj2 (get_voice_styles_lists_visible_json deployed initial_state));
    [reflexivity|].
  intros n Hin Hsep. cbn in Hin.
  repeat (destruct Hin as [<-|Hin];
          [cbn in Hsep; repeat (destruct Hsep as [Hsep|Hsep];
                                [discriminate|]); exact Hsep|]).
  exact Hin.
Defined.

Lemma success_status_message_sample :
  exists name model style wav,
    Some (lit "M1.json") = Some name
    /\ fst (load_model deployed initial_state) = Return model
    /\ helper_load_voice_style deployed [voice_style_path_of name]
       = Return style
    /\ engine_call deployed model hello style 5 speed
       = Return (wav, [1.234; 2.184]%float)
    /\ (44100%Z, [0.5; -0.25; 0.125]%float) = (sample_rate model, flatten wav)
    /\ lit "Generated successfully. Duration: 3.42s"
       = lit "Generated successfully. Duration: "
           ++ format_2f (np_sum [1.234; 2.184]%float) ++ lit "s".
Proof.
  destruct (proj1 success_status_message binary64 deployed initial_state
              hello (Some (lit "M1.json")) speed 5%Z
              (44100%Z, [0.5; -0.25; 0.125]%float)
              (lit "Generated successfully. Duration: 3.42s") eq_refl)
    as (name & model & style & wav & duration & H1 & H2 & H3 & H4 & H5 & H6).
  exists name, model, style, wav.
  assert (Hd : duration = [1.234; 2.184]%float).
  { cbn in H4. now injection H4. }
  subst duration. repeat split; assumption.
Defined.

(** ** Where the sample deployment departs from the specification *)

(** C1 as stated does not hold: after a first call that failed for the
    missing directory, a call made once the directory is there returns
    the engine. *)
Lemma later_call_finds_directory :
  fs_exists unlinked ONNX_DIR = false
  /\ fst (load_model unlinked initial_state)
     = Raise (FileNotFoundError
                (lit "ONNX directory not found at 'assets/onnx'. Please ensure assets are correctly linked."))
  /\ fs_exists deployed ONNX_DIR = true
  /\ fst (load_model deployed (snd (load_model unlinked initial_state)))
     = Return engine.
Proof. repeat split. Qed.

(** C2 as stated does not hold.  "notes.txt" is not among the listed
    styles, yet it exists in the style directory, so the request
    reaches the engine and succeeds.  "gone.json" is not listed and
    does not exist: with a blank text, or before the engine directory
    is there, the failure is another one and its message does not hold
    the style path. *)
Lemma unlisted_style_reaches_engine :
  fst (get_voice_styles deployed initial_state)
  = Return [lit "M1.json"; lit "F1.json"]
  /\ ~ In (lit "notes.txt") [lit "M1.json"; lit "F1.json"]
  /\ fst (generate_audio hello (Some (lit "notes.txt")) speed 5
            deployed initial_state)
     = Return (Some (44100%Z, [0.5; -0.25; 0.125]%float),
               lit "Generated successfully. Duration: 3.42s")
  /\ engine_calls
       (trace (snd (generate_audio hello (Some (lit "notes.txt")) speed 5
                      deployed initial_state)))
     = 1%nat
  /\ ~ In (lit "gone.json") [lit "M1.json"; lit "F1.json"]
  /\ fst (generate_audio blank (Some (lit "gone.json")) speed 5
            deployed initial_state)
     = Return (None, lit "Please enter some text.")
  /\ ~ contains (lit "Please enter some text.")
               (voice_style_path_of (lit "gone.json"))
  /\ fst (get_voice_styles unlinked initial_state) = Return []
  /\ fst (generate_audio hello (Some (lit "gone.json")) speed 5
            unlinked initial_state)
     = Return (None,
               lit "Error: ONNX directory not found at 'assets/onnx'. Please ensure assets are correctly linked.")
  /\ ~ contains
        (lit "Error: ONNX directory not found at 'assets/onnx'. Please ensure assets are correctly linked.")
        (voice_style_path_of (lit "gone.json")).
Proof.
  repeat match goal with
         | |- _ /\ _ => split
         | |- ~ In _ _ => apply not_listed; reflexivity
         | |- ~ contains _ _ => apply not_contains; reflexivity
         | |- _ = _ => reflexivity
         end.
Qed.

(** C3 as stated does not hold: the path of "M1.json" is relative, and
    the path of an absolute name is outside the style directory. *)
Lemma style_path_not_absolute :
  voice_style_path_of (lit "M1.json") = lit "assets/voice_styles/M1.json"
  /\ PosixPath.isabs (voice_style_path_of (lit "M1.json")) = false
  /\ voice_style_path_of (lit "/tmp/x.json") = lit "/tmp/x.json"
  /\ startswith (voice_style_path_of (lit "/tmp/x.json")) VOICE_STYLES_DIR
     = false.
Proof. repeat split. Qed.

(** C7 as stated does not hold: for the durations 1.234 and 2.184 the
    message of the successful call is not "Duration: 3.42s". *)
Lemma status_is_not_bare_duration :
  engine_call deployed engine hello style 5 speed
  = Return ([[0.5; -0.25; 0.125]%float], [1.234; 2.184]%float)
  /\ fst (generate_audio hello (Some (lit "M1.json")) speed 5
            deployed initial_state)
     = Return (Some (44100%Z, [0.5; -0.25; 0.125]%float),
               lit "Generated successfully. Duration: 3.42s")
  /\ lit "Generated successfully. Duration: 3.42s" <> lit "Duration: 3.42s".
Proof.
  repeat split. intros H. vm_compute in H. discriminate H.
Qed.

(** C8 as stated does not hold: ".draft.json" is in the style directory
    and ends with ".json", and it is not listed. *)
Lemma hidden_json_not_listed :
  fs_exists deployed VOICE_STYLES_DIR = true
  /\ In (lit ".draft.json") (fs_scandir deployed VOICE_STYLES_DIR)
  /\ endswith (lit ".draft.json") (lit ".json") = true
  /\ fst (get_voice_styles deployed initial_state)
     = Return [lit "M1.json"; lit "F1.json"]
  /\ ~ In (lit ".draft.json") [lit "M1.json"; lit "F1.json"].
Proof.
  split; [reflexivity|]. split; [right; left; reflexivity|].
  split; [reflexivity|]. split; [reflexivity|].
  apply not_listed. reflexivity.
Qed.

(** * Further properties of the module *)

(** ** Requests *)

Section Requests.

Context {NUM : Numeric}.

Lemma decodes_app (t u : list event) :
  decodes (t ++ u) = (decodes t + decodes u)%nat.
Proof. unfold decodes. now rewrite filter_app, length_app. Qed.

(** [load_model], whatever it finds: what it returns and leaves. *)
Lemma load_model_cases (e : env) (s : state) :
  (exists m, tts_model s = Some m /\ load_model e s = (Return m, s))
  \/ (tts_model s = None /\ fs_exists e ONNX_DIR = false
      /\ load_model e s
         = (Raise (FileNotFoundError
                     (lit "ONNX directory not found at 'assets/onnx'. Please ensure assets are correctly linked.")),
            log s [EvExists ONNX_DIR]))
  \/ (exists x, tts_model s = None /\ fs_exists e ONNX_DIR = true
      /\ helper_load_text_to_speech e ONNX_DIR false = Raise x
      /\ load_model e s
         = (Raise x,
            log s [EvExists ONNX_DIR;
                   EvPrint (lit "Loading TTS model from assets/onnx...");
                   EvLoadTextToSpeech ONNX_DIR false]))
  \/ (exists m, tts_model s = None /\ fs_exists e ONNX_DIR = true
      /\ helper_load_text_to_speech e ONNX_DIR false = Return m
      /\ load_model e s
         = (Return m,
            {| tts_model := Some m;
               trace := trace s ++
                 [EvExists ONNX_DIR;
                  EvPrint (lit "Loading TTS model from assets/onnx...");
                  EvLoadTextToSpeech ONNX_DIR false;
                  EvPrint (lit "Model loaded successfully.")] |})).
Proof.
  destruct (tts_model s) as [m|] eqn:Hm.
  - left. exists m. split; [reflexivity | now apply load_model_warm].
  - right. rewrite (load_model_cold e s Hm).
    destruct (fs_exists e ONNX_DIR); [|now left].
    right. destruct (helper_load_text_to_speech e ONNX_DIR false) as [m|x].
    + right. now exists m.
    + left. now exists x.
Qed.

(** X1. A request with a text and no selected style, the dropdown
    being empty ([None]) or holding the empty string, is answered
    "Please select a voice style." and leaves the state as it was: the
    engine directory is not looked up and no engine is constructed. *)
Theorem no_selection_stops_the_call (e : env) (s : state) (text : str)
    (voice_style_name : option str) (speed : num) (total_steps : Z) :
  forallb isspace text = false ->
  voice_style_name = None \/ voice_style_name = Some [] ->
  fst (generate_audio text voice_style_name speed total_steps e s)
    = Return (None, lit "Please select a voice style.")
  /\ snd (generate_audio text voice_style_name speed total_steps e s) = s.
Proof.
  intros Htext Hnone.
  rewrite (generate_audio_unselected e s text voice_style_name speed
             total_steps Htext Hnone).
  split; reflexivity.
Qed.

(** The ways of a request that passed the two validations. *)
Ltac after_load e m text name speed steps :=
  destruct (fs_exists e (voice_style_path_of name)) eqn:Hfile;
  [ destruct (helper_load_voice_style e [voice_style_path_of name])
      as [style|x] eqn:Hstyle;
    [ destruct (engine_call e m text style steps speed)
        as [[wav duration]|x] eqn:Hcall | ] | ].

Ltac request_cases e s text name speed steps :=
  rewrite (generate_audio_selected e s text name speed steps)
    by (assumption || discriminate);
  let m := fresh "m" in
  destruct (load_model_cases e s)
    as [(m & Hm & ->)
       |[(Hm & Honnx & ->)
        |[(x & Hm & Honnx & Hload & ->)
         |(m & Hm & Honnx & Hload & ->)]]];
  cbv zeta; unfold failed;
  [ after_load e m text name speed steps | | |
    after_load e m text name speed steps ].

(** X2. Whatever the request and the surroundings, [generate_audio]
    looks up nothing but the engine directory and the style path,
    constructs the engine from the engine directory with the GPU off,
    decodes the one style path, and calls the engine with the text as
    it was typed (not stripped) and with the steps and the speed as
    they were given (not clamped); it never lists a directory. *)
Theorem request_effects_serve_the_request (e : env) (s : state)
    (text name : str) (speed : num) (total_steps : Z) :
  exists evs,
    trace (snd (generate_audio text (Some name) speed total_steps e s))
      = trace s ++ evs
    /\ Forall (serves text name total_steps speed) evs.
Proof.
  destruct (forallb isspace text) eqn:Htext.
  { rewrite generate_audio_blank by assumption.
    exists []. cbn [snd]. now rewrite app_nil_r. }
  destruct name as [|c name].
  { rewrite generate_audio_unselected by auto.
    exists []. cbn [snd]. now rewrite app_nil_r. }
  request_cases e s text (c :: name) speed total_steps;
    cbn [snd log trace tts_model]; rewrite <- ?app_assoc;
    eexists; (split; [reflexivity|]);
    repeat (apply Forall_cons; [cbn [serves]; now auto|]);
    apply Forall_nil.
Qed.

(** X3. The status message tells whether audio came back: the call
    returns audio exactly when its message starts with "Generated
    successfully."; none of the failure messages does. *)
Theorem status_tells_success (e : env) (s : state) (text : str)
    (voice_style_name : option str) (speed : num) (total_steps : Z)
    (audio : option (Z * list num)) (status : str) :
  fst (generate_audio text voice_style_name speed total_steps e s)
    = Return (audio, status) ->
  audio <> None <-> startswith status (lit "Generated successfully.") = true.
Proof.
  assert (Hno : forall msg : str,
             startswith msg (lit "Generated successfully.") = false ->
             None <> (None : option (Z * list num)) <->
             startswith msg (lit "Generated successfully.") = true).
  { intros msg ->. split; [congruence | discriminate]. }
  destruct (forallb isspace text) eqn:Htext.
  { rewrite generate_audio_blank by assumption. cbn [fst].
    intros H. injection H as <- <-. now apply Hno. }
  destruct voice_style_name as [[|c name]|];
    try (rewrite generate_audio_unselected by auto; cbn [fst];
         intros H; injection H as <- <-; now apply Hno).
  request_cases e s text (c :: name) speed total_steps; cbn [fst];
    intros H; injection H as <- <-; try (now apply Hno).
  all: split; [reflexivity | discriminate].
Qed.

(** X4. A request does nothing twice: it calls the engine at most
    once, decodes at most one style and constructs at most one engine;
    when it returns audio it has called the engine exactly once and
    decoded exactly one style; after a failure nothing is tried
    again. *)
Theorem request_tries_once (e : env) (s : state) (text : str)
    (voice_style_name : option str) (speed : num) (total_steps : Z) :
  let r := fst (generate_audio text voice_style_name speed total_steps e s) in
  let s' := snd (generate_audio text voice_style_name speed total_steps e s) in
  (engine_calls (trace s') <= engine_calls (trace s) + 1)%nat
  /\ (decodes (trace s') <= decodes (trace s) + 1)%nat
  /\ (constructions (trace s') <= constructions (trace s) + 1)%nat
  /\ (forall audio status,
        r = Return (Some audio, status) ->
        engine_calls (trace s') = (engine_calls (trace s) + 1)%nat
        /\ decodes (trace s') = (decodes (trace s) + 1)%nat).
Proof.
  cbv zeta.
  destruct (forallb isspace text) eqn:Htext.
  { rewrite generate_audio_blank by assumption. cbn [fst snd].
    repeat split; try lia; discriminate. }
  destruct voice_style_name as [[|c name]|];
    try (rewrite generate_audio_unselected by auto; cbn [fst snd];
         repeat split; try lia; discriminate).
  request_cases e s text (c :: name) speed total_steps;
    cbn [fst snd log trace tts_model]; rewrite <- ?app_assoc;
    rewrite ?engine_calls_app, ?decodes_app, ?constructions_app;
    cbn; repeat split; try lia; discriminate.
Qed.

(** X5. A request made on a cold start while the engine directory is
    missing is answered "Error: ONNX directory not found at
    'assets/onnx'. Please ensure assets are correctly linked."; it only
    looked the engine directory up and logged the traceback: the style
    path is not looked up, nothing is constructed, and [tts_model]
    stays empty, so the next request starts cold again. *)
Theorem request_without_engine_directory (e : env) (s : state)
    (text name : str) (speed : num) (total_steps : Z) :
  tts_model s = None ->
  forallb isspace text = false -> name <> [] ->
  fs_exists e ONNX_DIR = false ->
  let msg := lit "ONNX directory not found at 'assets/onnx'. Please ensure assets are correctly linked." in
  generate_audio text (Some name) speed total_steps e s
  = (Return (None, lit "Error: " ++ msg),
     {| tts_model := None;
        trace := trace s ++ [EvExists ONNX_DIR;
                             EvTraceback (FileNotFoundError msg)] |}).
Proof.
  intros Hm Htext Hname Honnx msg.
  rewrite generate_audio_selected, (load_model_cold e s Hm), Honnx
    by assumption.
  unfold failed, log. cbn [tts_model trace str_of_exn].
  now rewrite Hm, <- app_assoc.
Qed.

(** X6. A construction that fails is not remembered: as long as the
    engine directory is there and [load_text_to_speech] raises, every
    call of [load_model] tries the construction again and raises what
    the construction raised; [tts_model] stays empty. *)
Theorem failed_construction_is_tried_again (es : list env) (s : state) :
  tts_model s = None ->
  Forall (fun e => fs_exists e ONNX_DIR = true
                   /\ exists x,
                        helper_load_text_to_speech e ONNX_DIR false = Raise x)
         es ->
  fst (run_seq load_model es s)
    = map (fun e => helper_load_text_to_speech e ONNX_DIR false) es
  /\ tts_model (snd (run_seq load_model es s)) = None
  /\ constructions (trace (snd (run_seq load_model es s)))
     = (constructions (trace s) + length es)%nat.
Proof.
  intros Hm Hes. revert s Hm.
  induction Hes as [|e es (Honnx & x & Hload) _ IH]; intros s Hm.
  - cbn. repeat split; [assumption | lia].
  - cbn [run_seq map length].
    rewrite (load_model_cold e s Hm), Honnx, Hload.
    set (s1 := log s _).
    destruct (IH s1 Hm) as (Hr & Ht & Hc).
    destruct (run_seq load_model es s1) as [rs s2]. cbn [fst snd] in *.
    rewrite Hr, Ht, Hc. subst s1. cbn [log trace].
    rewrite constructions_app. cbn. repeat split. lia.
Qed.

(** X7. The engine a request constructed stays, whatever becomes of
    the request: on a cold start with the engine directory there and a
    construction that succeeds, [tts_model] holds the engine after the
    call even when the style is missing, cannot be decoded or the
    inference fails, and exactly one construction was made. *)
Theorem engine_stays_whatever_the_answer (e : env) (s : state)
    (text name : str) (speed : num) (total_steps : Z) (m : TextToSpeech) :
  tts_model s = None ->
  forallb isspace text = false -> name <> [] ->
  fs_exists e ONNX_DIR = true ->
  helper_load_text_to_speech e ONNX_DIR false = Return m ->
  let s' := snd (generate_audio text (Some name) speed total_steps e s) in
  tts_model s' = Some m
  /\ constructions (trace s') = S (constructions (trace s)).
Proof.
  intros Hm Htext Hname Honnx Hload s'. subst s'.
  rewrite generate_audio_selected, (load_model_cold e s Hm), Honnx, Hload
    by assumption.
  cbv zeta. unfold failed.
  after_load e m text name speed total_steps;
    cbn [snd log trace tts_model]; rewrite <- ?app_assoc;
    rewrite constructions_app; cbn; split; (reflexivity || lia).
Qed.

(** X8. Once the engine is loaded a request does not depend on the
    engine directory, on [load_text_to_speech] or on the listing of
    directories: in two surroundings that agree on the other paths, on
    the decoding and on the engine, it returns the same values and
    leaves the same state. *)
Theorem loaded_request_ignores_engine_directory (e1 e2 : env) (s : state)
    (text : str) (voice_style_name : option str) (speed : num)
    (total_steps : Z) (m : TextToSpeech) :
  tts_model s = Some m ->
  same_for_requests e1 e2 ->
  generate_audio text voice_style_name speed total_steps e1 s
  = generate_audio text voice_style_name speed total_steps e2 s.
Proof.
  intros Hm (Hfs & Hstyle & Hcall).
  destruct (forallb isspace text) eqn:Htext.
  { now rewrite !generate_audio_blank by assumption. }
  destruct voice_style_name as [[|c name]|];
    try (now rewrite !generate_audio_unselected by auto).
  rewrite !generate_audio_selected by (assumption || discriminate).
  rewrite (load_model_warm e1 s m Hm), (load_model_warm e2 s m Hm).
  cbv zeta.
  rewrite (Hfs _ (voice_style_path_not_onnx (c :: name))), Hstyle.
  destruct (fs_exists e2 _); [|reflexivity].
  destruct (helper_load_voice_style e2 _) as [style|x]; [|reflexivity].
  now rewrite Hcall.
Qed.

(** X9. Asking again gives the same answer: a request repeated in the
    same surroundings, right after the first, returns what the first
    returned, and it constructs nothing when the first one got the
    engine. *)
Theorem repeated_request_same_answer (e : env) (s : state) (text : str)
    (voice_style_name : option str) (speed : num) (total_steps : Z) :
  let s1 := snd (generate_audio text voice_style_name speed total_steps e s) in
  fst (generate_audio text voice_style_name speed total_steps e s1)
    = fst (generate_audio text voice_style_name speed total_steps e s)
  /\ (tts_model s1 <> None ->
      constructions
        (trace (snd (generate_audio text voice_style_name speed total_steps
                       e s1)))
      = constructions (trace s1)).
Proof.
  cbv zeta.
  destruct (forallb isspace text) eqn:Htext.
  { rewrite !generate_audio_blank by assumption. split; reflexivity. }
  destruct voice_style_name as [[|c name]|];
    try (rewrite !generate_audio_unselected by auto; split; reflexivity).
  set (name' := c :: name).
  assert (Hname : name' <> []) by discriminate.
  match goal with
  | |- context [generate_audio _ _ _ _ e (snd ?first)] =>
      set (s1 := snd first)
  end.
  assert (Hs1 : (exists m, tts_model s1 = Some m
                           /\ fst (load_model e s) = Return m)
                \/ (tts_model s1 = None
                    /\ exists x, fst (load_model e s) = Raise x
                                 /\ fst (load_model e s1) = Raise x)).
  { subst s1. rewrite generate_audio_selected by assumption.
    destruct (load_model_cases e s)
      as [(m & Hm & ->)
         |[(Hm & Honnx & ->)
          |[(x & Hm & Honnx & Hload & ->)
           |(m & Hm & Honnx & Hload & ->)]]];
      cbv zeta; unfold failed.
    - left. exists m. after_load e m text name' speed total_steps;
        cbn [fst snd log tts_model]; auto.
    - right. cbn [fst snd log tts_model]. split; [exact Hm|].
      eexists. split; [reflexivity|].
      rewrite load_model_cold by exact Hm. now rewrite Honnx.
    - right. cbn [fst snd log tts_model]. split; [exact Hm|].
      exists x. split; [reflexivity|].
      rewrite load_model_cold by exact Hm. now rewrite Honnx, Hload.
    - left. exists m. after_load e m text name' speed total_steps;
        cbn [fst snd log tts_model]; auto. }
  clearbody s1.
  rewrite (generate_audio_selected e s1), (generate_audio_selected e s)
    by assumption.
  destruct Hs1 as [(m & Hm1 & Hm)|(Hm1 & x & Hx & Hx1)].
  - rewrite (load_model_warm e s1 m Hm1).
    destruct (load_model e s) as [o s0]. cbn [fst] in Hm. subst o.
    cbv zeta. unfold failed. split.
    + after_load e m text name' speed total_steps; reflexivity.
    + intros _. after_load e m text name' speed total_steps;
        cbn [snd log trace]; rewrite !constructions_app; cbn; lia.
  - destruct (load_model e s) as [o s0]. cbn [fst] in Hx. subst o.
    destruct (load_model e s1) as [o1 s2]. cbn [fst] in Hx1. subst o1.
    split; [reflexivity | congruence].
Qed.

End Requests.

(** ** The style dropdown *)

Section Dropdown.

Context {NUM : Numeric}.

Lemma voice_style_dropdown_unfold (e : env) (s : state) :
  voice_style_dropdown e s =
  match get_voice_styles e s with
  | (Return styles, s') => (Return (styles, default_style styles), s')
  | (Raise x, s') => (Raise x, s')
  end.
Proof. reflexivity. Qed.

(** The listing, as a filter of the names of the directory. *)
Lemma listing_is_filter (e : env) (s : state) :
  fs_exists e VOICE_STYLES_DIR = true ->
  (forall n, In n (fs_scandir e VOICE_STYLES_DIR) -> ~ In PosixPath.sep n) ->
  fst (get_voice_styles e s)
    = Return (filter visible_json (fs_scandir e VOICE_STYLES_DIR)).
Proof.
  intros Hdir Hnames. rewrite get_voice_styles_unfold, Hdir. cbn [fst].
  f_equal. rewrite glob1_json.
  apply basename_join_names; [discriminate | reflexivity |].
  intros n Hin. apply Hnames. now apply filter_In in Hin.
Qed.

Lemma endswith_nonempty (n suffix : str) :
  suffix <> [] -> endswith n suffix = true -> n <> [].
Proof.
  intros Hs He ->. apply endswith_iff in He as [a Ha].
  symmetry in Ha. apply app_eq_nil in Ha as [_ Ha]. contradiction.
Qed.

(** Where the first kept element of a filtered list stands. *)
Lemma filter_first {A} (f : A -> bool) (l : list A) :
  match filter f l with
  | [] => Forall (fun x => f x = false) l
  | x :: _ =>
      exists before after,
        l = before ++ x :: after
        /\ Forall (fun y => f y = false) before /\ f x = true
  end.
Proof.
  induction l as [|y l IH]; cbn [filter]; [constructor|].
  destruct (f y) eqn:Hy.
  - exists [], l. repeat split; [constructor | exact Hy].
  - destruct (filter f l) as [|x t].
    + now constructor.
    + destruct IH as (before & after & -> & Hb & Hx).
      exists (y :: before), after. repeat split; [now constructor | exact Hx].
Qed.

(** X10. Every name the dropdown offers leads back to the file it was
    listed for: where the style directory exists, a listed name is not
    empty, so it passes the selection check of [generate_audio], it is
    a name of the directory, and the path [generate_audio] resolves it
    to is the style directory, "/" and the name, whose base name is the
    listed name again. *)
Theorem listed_names_resolve_to_their_files (e : env) (s : state) :
  fs_exists e VOICE_STYLES_DIR = true ->
  (forall n, In n (fs_scandir e VOICE_STYLES_DIR) -> ~ In PosixPath.sep n) ->
  exists styles,
    fst (get_voice_styles e s) = Return styles
    /\ map voice_style_path_of styles
       = map (PosixPath.join VOICE_STYLES_DIR)
           (Glob.glob1 (fs_scandir e VOICE_STYLES_DIR) (lit "*.json"))
    /\ Forall (fun n =>
                truthy n = true
                /\ In n (fs_scandir e VOICE_STYLES_DIR)
                /\ voice_style_path_of n
                   = VOICE_STYLES_DIR ++ [PosixPath.sep] ++ n
                /\ PosixPath.basename (voice_style_path_of n) = n)
             styles.
Proof.
  intros Hdir Hnames.
  exists (filter visible_json (fs_scandir e VOICE_STYLES_DIR)).
  split; [now apply listing_is_filter|]. split.
  - rewrite glob1_json. reflexivity.
  - apply Forall_forall. intros n Hin. apply filter_In in Hin as [Hin Hvis].
    unfold visible_json in Hvis. apply andb_true_iff in Hvis as [_ Hjson].
    assert (Hrel : startswith n [PosixPath.sep] = false).
    { destruct n as [|c n]; [reflexivity|]. cbn [startswith].
      destruct (N.eqb_spec PosixPath.sep c) as [<-|]; [|reflexivity].
      exfalso. apply (Hnames _ Hin). now left. }
    assert (Hpath : voice_style_path_of n
                    = VOICE_STYLES_DIR ++ [PosixPath.sep] ++ n).
    { unfold voice_style_path_of.
      apply join_relative; [exact Hrel | reflexivity | discriminate]. }
    repeat split.
    + destruct n; [|reflexivity].
      exfalso. now apply (endswith_nonempty [] (lit ".json")).
    + exact Hin.
    + exact Hpath.
    + rewrite Hpath. apply basename_after_sep. now apply Hnames.
Qed.

(** X11. A page built while the style directory is missing, or holds
    no visible ".json" name, offers no style and selects none; a click
    on it with a text is answered "Please select a voice style." and
    changes nothing, whatever the surroundings are by then. *)
Theorem page_without_styles (e0 e : env) (s0 s : state) (text : str)
    (speed : num) (total_steps : Z) :
  fs_exists e0 VOICE_STYLES_DIR = false
  \/ Forall (fun n => visible_json n = false)
       (fs_scandir e0 VOICE_STYLES_DIR) ->
  forallb isspace text = false ->
  exists value,
    fst (voice_style_dropdown e0 s0) = Return ([], value)
    /\ value = None
    /\ tts_model (snd (voice_style_dropdown e0 s0)) = tts_model s0
    /\ generate_audio text value speed total_steps e s
       = (Return (None, lit "Please select a voice style."), s).
Proof.
  intros Hnone Htext. exists None.
  rewrite voice_style_dropdown_unfold, get_voice_styles_unfold.
  assert (Hclick : generate_audio text None speed total_steps e s
                   = (Return (None, lit "Please select a voice style."), s))
    by (apply generate_audio_unselected; auto).
  destruct (fs_exists e0 VOICE_STYLES_DIR) eqn:Hdir.
  - destruct Hnone as [Hnone|Hnone]; [discriminate|].
    rewrite glob1_json.
    assert (Hempty : filter (fun n => negb (Glob.ishidden n)
                                      && endswith n (lit ".json"))
                       (fs_scandir e0 VOICE_STYLES_DIR) = []).
    { induction Hnone as [|n l Hn _ IH]; [reflexivity|].
      cbn [filter]. unfold visible_json in Hn. now rewrite Hn. }
    rewrite Hempty. cbn. auto.
  - cbn. auto.
Qed.

(** X12. The style the page selects at the start is the first name of
    the style directory, in the order the directory gives its names,
    that ends with ".json" and does not start with a dot; it is the
    first of the choices.  The page selects none exactly when the
    directory holds no such name. *)
Theorem default_style_is_first_listed (e : env) (s : state) :
  fs_exists e VOICE_STYLES_DIR = true ->
  (forall n, In n (fs_scandir e VOICE_STYLES_DIR) -> ~ In PosixPath.sep n) ->
  exists choices value,
    fst (voice_style_dropdown e s) = Return (choices, value)
    /\ choices = filter visible_json (fs_scandir e VOICE_STYLES_DIR)
    /\ match value with
       | None =>
           choices = []
           /\ Forall (fun n => visible_json n = false)
                (fs_scandir e VOICE_STYLES_DIR)
       | Some first =>
           (exists rest, choices = first :: rest)
           /\ exists before after,
                fs_scandir e VOICE_STYLES_DIR = before ++ first :: after
                /\ Forall (fun n => visible_json n = false) before
                /\ visible_json first = true
       end.
Proof.
  intros Hdir Hnames.
  pose proof (listing_is_filter e s Hdir Hnames) as Hlist.
  rewrite voice_style_dropdown_unfold.
  destruct (get_voice_styles e s) as [o s']. cbn [fst] in Hlist. subst o.
  cbn [fst].
  exists (filter visible_json (fs_scandir e VOICE_STYLES_DIR)).
  eexists. split; [reflexivity|]. split; [reflexivity|].
  pose proof (filter_first visible_json (fs_scandir e VOICE_STYLES_DIR))
    as Hfirst.
  destruct (filter visible_json (fs_scandir e VOICE_STYLES_DIR))
    as [|first rest]; cbn [default_style].
  - split; [reflexivity | exact Hfirst].
  - split; [now exists rest | exact Hfirst].
Qed.

End Dropdown.

(** ** The request that succeeds *)

Section Success.

Context {NUM : Numeric}.

(** X13. A request with a text and a selected style succeeds when the
    engine is stored or can be constructed, the style path exists, the
    style decodes and the inference returns: the audio is the sample
    rate of the engine with the samples in their order (the one row of
    a one-row batch as it is), the engine is stored after the call, and
    the engine was called once, with the decoded style. *)
Theorem request_succeeds (e : env) (s : state) (text name : str)
    (speed : num) (total_steps : Z) (m : TextToSpeech) (style : Style)
    (wav : list (list num)) (duration : list num) :
  forallb isspace text = false -> name <> [] ->
  tts_model s = Some m
  \/ (tts_model s = None /\ fs_exists e ONNX_DIR = true
      /\ helper_load_text_to_speech e ONNX_DIR false = Return m) ->
  fs_exists e (voice_style_path_of name) = true ->
  helper_load_voice_style e [voice_style_path_of name] = Return style ->
  engine_call e m text style total_steps speed = Return (wav, duration) ->
  let s' := snd (generate_audio text (Some name) speed total_steps e s) in
  fst (generate_audio text (Some name) speed total_steps e s)
    = Return (Some (sample_rate m, flatten wav), success_message duration)
  /\ (forall row, wav = [row] -> flatten wav = row)
  /\ length (flatten wav) = list_sum (map (@length num) wav)
  /\ tts_model s' = Some m
  /\ engine_calls (trace s') = S (engine_calls (trace s))
  /\ In (EvEngineCall m text style total_steps speed) (trace s').
Proof.
  intros Htext Hname Hengine Hfile Hstyle Hcall s'. subst s'.
  rewrite generate_audio_selected by assumption.
  assert (Hflat : (forall row, wav = [row] -> flatten wav = row)
                  /\ length (flatten wav) = list_sum (map (@length num) wav)).
  { unfold flatten. split.
    - intros row ->. cbn. apply app_nil_r.
    - clear. induction wav as [|row wav IH]; [reflexivity|].
      cbn [concat map list_sum]. now rewrite length_app, IH. }
  destruct Hflat as [Hrow Hlen].
  destruct Hengine as [Hm|(Hm & Honnx & Hload)].
  - rewrite (load_model_warm e s m Hm). cbv zeta.
    rewrite Hfile, Hstyle, Hcall. cbn [fst snd log trace tts_model].
    rewrite engine_calls_app. cbn.
    repeat split; try assumption; try lia.
    apply in_or_app. right. cbn. auto.
  - rewrite (load_model_cold e s Hm), Honnx, Hload. cbv zeta.
    rewrite Hfile, Hstyle, Hcall. cbn [fst snd log trace tts_model].
    rewrite !engine_calls_app. cbn.
    repeat split; try assumption; try lia.
    apply in_or_app. right. cbn. auto.
Qed.

End Success.

(** ** The sample deployment, again *)

Lemma deployed_names_plain (n : str) :
  In n (fs_scandir deployed VOICE_STYLES_DIR) -> ~ In PosixPath.sep n.
Proof.
  intros Hin Hsep. cbn in Hin.
  repeat (destruct Hin as [<-|Hin];
          [cbn in Hsep; repeat (destruct Hsep as [Hsep|Hsep];
                                [discriminate|]); exact Hsep|]).
  exact Hin.
Qed.

Lemma removed_engine_directory_same_for_requests :
  same_for_requests deployed Site.engine_dir_removed.
Proof.
  split; [|split; reflexivity].
  intros p Hp. cbn [fs_exists Site.engine_dir_removed].
  destruct (str_eqb p ONNX_DIR) eqn:E; [|reflexivity].
  apply str_eqb_eq in E. contradiction.
Qed.

Lemma no_selection_stops_the_call_sample :
  generate_audio hello None speed 5 unlinked initial_state
  = (Return (None, lit "Please select a voice style."), initial_state).
Proof.
  apply injective_projections;
    apply (no_selection_stops_the_call unlinked initial_state hello None
             speed 5); auto.
Defined.

Lemma status_tells_success_sample :
  (Some (44100%Z, [0.5; -0.25; 0.125]%float) <> None
   <-> startswith (lit "Generated successfully. Duration: 3.42s")
         (lit "Generated successfully.") = true)
  /\ ((None : option (Z * list float)) <> None
      <-> startswith (lit "Voice style file not found: assets/voice_styles/nope.json")
            (lit "Generated successfully.") = true).
Proof.
  split.
  - exact (status_tells_success deployed initial_state hello
             (Some (lit "M1.json")) speed 5 _ _ eq_refl).
  - exact (status_tells_success deployed initial_state hello
             (Some (lit "nope.json")) speed 5 _ _ eq_refl).
Defined.

Lemma request_without_engine_directory_sample :
  generate_audio Site.padded (Some (lit "M1.json")) speed 5
    Site.engine_dir_removed initial_state
  = (Return (None,
             lit "Error: ONNX directory not found at 'assets/onnx'. Please ensure assets are correctly linked."),
     {| tts_model := None;
        trace := [EvExists ONNX_DIR;
                  EvTraceback
                    (FileNotFoundError
                       (lit "ONNX directory not found at 'assets/onnx'. Please ensure assets are correctly linked."))] |}).
Proof.
  apply (request_without_engine_directory Site.engine_dir_removed
           initial_state Site.padded (lit "M1.json") speed 5);
    (reflexivity || discriminate).
Defined.

Lemma failed_construction_is_tried_again_sample :
  fst (run_seq load_model [broken; broken; broken] initial_state)
  = repeat (Raise (OtherException (lit "RuntimeError")
                     (lit "bad model file"))) 3
  /\ tts_model (snd (run_seq load_model [broken; broken; broken]
                       initial_state)) = None
  /\ constructions
       (trace (snd (run_seq load_model [broken; broken; broken]
                      initial_state))) = 3%nat.
Proof.
  apply (failed_construction_is_tried_again [broken; broken; broken]
           initial_state); [reflexivity|].
  repeat constructor; eexists; reflexivity.
Defined.

Lemma engine_stays_whatever_the_answer_sample :
  fst (generate_audio hello (Some (lit "M1.json")) speed 5
         Site.bad_styles initial_state)
  = Return (None, lit "Error: bad style file")
  /\ tts_model (snd (generate_audio hello (Some (lit "M1.json")) speed 5
                       Site.bad_styles initial_state))
     = Some engine
  /\ constructions
       (trace (snd (generate_audio hello (Some (lit "M1.json")) speed 5
                      Site.bad_styles initial_state)))
     = 1%nat.
Proof.
  split; [reflexivity|].
  apply (engine_stays_whatever_the_answer Site.bad_styles initial_state
           hello (lit "M1.json") speed 5 engine);
    (reflexivity || discriminate).
Defined.

Lemma loaded_request_ignores_engine_directory_sample :
  generate_audio Site.padded (Some (lit "F1.json")) speed 5 deployed warm
  = generate_audio Site.padded (Some (lit "F1.json")) speed 5
      Site.engine_dir_removed warm
  /\ fst (generate_audio Site.padded (Some (lit "F1.json")) speed 5
            Site.engine_dir_removed warm)
     = Return (Some (44100%Z, [0.5; -0.25; 0.125]%float),
               lit "Generated successfully. Duration: 3.42s").
Proof.
  split; [|reflexivity].
  apply (loaded_request_ignores_engine_directory deployed
           Site.engine_dir_removed warm Site.padded
           (Some (lit "F1.json")) speed 5 engine);
    [reflexivity | exact removed_engine_directory_same_for_requests].
Defined.

Lemma listed_names_resolve_to_their_files_sample :
  exists styles,
    fst (get_voice_styles deployed initial_state) = Return styles
    /\ map voice_style_path_of styles
       = map (PosixPath.join VOICE_STYLES_DIR)
           (Glob.glob1 (fs_scandir deployed VOICE_STYLES_DIR) (lit "*.json"))
    /\ Forall (fun n =>
                truthy n = true
                /\ In n (fs_scandir deployed VOICE_STYLES_DIR)
                /\ voice_style_path_of n
                   = VOICE_STYLES_DIR ++ [PosixPath.sep] ++ n
                /\ PosixPath.basename (voice_style_path_of n) = n)
             styles.
Proof.
  apply (listed_names_resolve_to_their_files deployed initial_state);
    [reflexivity | exact deployed_names_plain].
Defined.

Lemma page_without_styles_sample :
  exists value,
    fst (voice_style_dropdown unlinked initial_state) = Return ([], value)
    /\ value = None
    /\ tts_model (snd (voice_style_dropdown unlinked initial_state))
       = tts_model initial_state
    /\ generate_audio DEFAULT_TEXT value DEFAULT_SPEED DEFAULT_STEPS
         deployed warm
       = (Return (None, lit "Please select a voice style."), warm).
Proof.
  apply (page_without_styles unlinked deployed initial_state warm
           DEFAULT_TEXT DEFAULT_SPEED DEFAULT_STEPS);
    [left; reflexivity | reflexivity].
Defined.

Lemma default_style_is_first_listed_sample :
  fst (voice_style_dropdown deployed initial_state)
  = Return ([lit "M1.json"; lit "F1.json"], Some (lit "M1.json")).
Proof.
  destruct (default_style_is_first_listed deployed initial_state eq_refl
              deployed_names_plain)
    as (choices & value & Hpage & Hchoices & Hvalue).
  rewrite Hpage. subst choices.
  change (filter visible_json (fs_scandir deployed VOICE_STYLES_DIR))
    with [lit "M1.json"; lit "F1.json"] in *.
  destruct value as [first|].
  - destruct Hvalue as ((rest & Hfirst) & _).
    injection Hfirst as <- _. reflexivity.
  - destruct Hvalue as (Hempty & _). discriminate Hempty.
Defined.

Lemma request_succeeds_sample :
  fst (generate_audio DEFAULT_TEXT (Some (lit "M1.json")) DEFAULT_SPEED
         DEFAULT_STEPS deployed initial_state)
  = Return (Some (44100%Z, [0.5; -0.25; 0.125]%float),
            lit "Generated successfully. Duration: 3.42s")
  /\ tts_model (snd (generate_audio DEFAULT_TEXT (Some (lit "M1.json"))
                       DEFAULT_SPEED DEFAULT_STEPS deployed initial_state))
     = Some engine
  /\ engine_calls
       (trace (snd (generate_audio DEFAULT_TEXT (Some (lit "M1.json"))
                      DEFAULT_SPEED DEFAULT_STEPS deployed initial_state)))
     = 1%nat.
Proof.
  destruct (request_succeeds deployed initial_state DEFAULT_TEXT
              (lit "M1.json") DEFAULT_SPEED DEFAULT_STEPS engine style
              [[0.5; -0.25; 0.125]%float] [1.234; 2.184]%float)
    as (Hr & _ & _ & Hm & Hcalls & _);
    try reflexivity; [discriminate | right; repeat split |].
  repeat split; assumption.
Defined.
